(** * registry.py: the stock-exchange registry and its error report

    A shallow embedding of [src/registry.py]: the [Registry] dictionary, the
    [RegistryErrorDict] it stores under the key ['Errors'], the row check
    [_registry_row_is_addable], the conversion [_registry_row_from_csv],
    the loader [load_from_file] and the helper [_string_to_decimal].

    Python strings are modelled by [string]; a character is a code point
    below 256.  Python's unbounded [int] is [Z]. *)

From Stdlib Require Import ZArith NArith Ascii String List Bool Lia.
From stdpp Require Import base option strings gmap list fin_maps fin_sets.

Local Open Scope string_scope.
Local Open Scope Z_scope.

(** ** The Python builtins the module calls *)

Module Py.

(** [str.isspace] on one character (code points below 256). *)
Definition isspace (c : ascii) : bool :=
  let n := nat_of_ascii c in
  ((9 <=? n) && (n <=? 13) || (28 <=? n) && (n <=? 32)
   || (n =? 133) || (n =? 160))%nat.

(** [str.isdigit] on one character, as [\d] and [int] see it. *)
Definition isdigit (c : ascii) : bool :=
  let n := nat_of_ascii c in ((48 <=? n) && (n <=? 57))%nat.

Definition digit_value (c : ascii) : Z := Z.of_nat (nat_of_ascii c) - 48.

(** ASCII lower-casing, for the case-insensitive matches. *)
Definition lower (c : ascii) : ascii :=
  let n := nat_of_ascii c in
  if ((65 <=? n) && (n <=? 90))%nat then ascii_of_nat (n + 32) else c.

Definition ascii_eqb (a b : ascii) : bool := Ascii.eqb a b.

Fixpoint str_lower (s : string) : string :=
  match s with
  | EmptyString => EmptyString
  | String c r => String (lower c) (str_lower r)
  end.

Fixpoint lstrip (s : string) : string :=
  match s with
  | EmptyString => EmptyString
  | String c r => if isspace c then lstrip r else s
  end.

Fixpoint rstrip (s : string) : string :=
  match s with
  | EmptyString => EmptyString
  | String c r =>
      match rstrip r with
      | EmptyString => if isspace c then EmptyString else String c EmptyString
      | r' => String c r'
      end
  end.

(** [s.strip()] *)
Definition strip (s : string) : string := rstrip (lstrip s).

(** [c in s] for a one-character [c]. *)
Fixpoint contains (c : ascii) (s : string) : bool :=
  match s with
  | EmptyString => false
  | String d r => ascii_eqb c d || contains c r
  end.

(** [s.replace(a, b)] for one-character [a] and [b]: a new string, [s]
    itself is left as it is (Python strings are immutable). *)
Fixpoint replace (a b : ascii) (s : string) : string :=
  match s with
  | EmptyString => EmptyString
  | String c r => String (if ascii_eqb c a then b else c) (replace a b r)
  end.

(** [s.replace(a, '')] *)
Fixpoint remove (a : ascii) (s : string) : string :=
  match s with
  | EmptyString => EmptyString
  | String c r => if ascii_eqb c a then remove a r else String c (remove a r)
  end.

(** The longest prefix of digits and what follows it. *)
Fixpoint span_digits (s : string) : string * string :=
  match s with
  | EmptyString => (EmptyString, EmptyString)
  | String c r =>
      if isdigit c
      then let '(d, t) := span_digits r in (String c d, t)
      else (EmptyString, s)
  end.

(** The number a string of digits denotes, most significant first. *)
Fixpoint digits_value (acc : Z) (s : string) : Z :=
  match s with
  | EmptyString => acc
  | String c r => digits_value (10 * acc + digit_value c) r
  end.

(** *** [int(s)] for a string, base 10

    White space around the text is dropped, one sign is allowed, and the
    digits may be grouped by single underscores.  [None] is [ValueError].

    The white space of [int] is not that of [str.strip]: the text is first
    brought to ASCII, which turns the white space above 127 (133 and 160 here)
    into a blank and leaves every character below 127 as it is, and the
    number parser then skips the C white space, 9 to 13 and 32.  So 28 to 31
    are white space for [strip] and not for [int]. *)
Definition int_isspace (c : ascii) : bool :=
  let n := nat_of_ascii c in
  ((9 <=? n) && (n <=? 13) || (n =? 32) || (n =? 133) || (n =? 160))%nat.

Fixpoint int_lstrip (s : string) : string :=
  match s with
  | EmptyString => EmptyString
  | String c r => if int_isspace c then int_lstrip r else s
  end.

Fixpoint int_rstrip (s : string) : string :=
  match s with
  | EmptyString => EmptyString
  | String c r =>
      match int_rstrip r with
      | EmptyString => if int_isspace c then EmptyString else String c EmptyString
      | r' => String c r'
      end
  end.

(** The number of digits in a text. *)
Fixpoint count_digits (s : string) : nat :=
  match s with
  | EmptyString => 0%nat
  | String c r => if isdigit c then S (count_digits r) else count_digits r
  end.

(** The limit on the digits of a text that [int] converts:
    [max_str_digits] is [sys.get_int_max_str_digits()], 4300 unless set
    otherwise, and 0 where there is no limit (as in every Python before the
    limit was introduced).  Texts of up to 640 digits are never refused. *)
Definition over_limit (max_str_digits digits : nat) : bool :=
  ((640 <? digits) && (0 <? max_str_digits) && (max_str_digits <? digits))%nat.

Fixpoint int_digits (acc : Z) (after_digit : bool) (s : string) : option Z :=
  match s with
  | EmptyString => if after_digit then Some acc else None
  | String c r =>
      if isdigit c then int_digits (10 * acc + digit_value c) true r
      else if ascii_eqb c "_" then
        if after_digit then int_digits acc false r else None
      else None
  end.

Definition int (max_str_digits : nat) (s : string) : option Z :=
  let t := int_rstrip (int_lstrip s) in
  v ← match t with
      | String c r =>
          if ascii_eqb c "-" then Z.opp <$> int_digits 0 false r
          else if ascii_eqb c "+" then int_digits 0 false r
          else int_digits 0 false (String c r)
      | EmptyString => None
      end;
  if over_limit max_str_digits (count_digits t) then None else Some v.

(** *** [decimal.Decimal]

    A decimal is kept as Python keeps it: sign, coefficient and exponent,
    or one of the special values.  A finite one denotes
    [(-1)^sign * coefficient * 10^exponent]. *)
Inductive Decimal : Type :=
| Finite (sign : bool) (coefficient : N) (exponent : Z)
| Infinity (sign : bool)
| NaN (sign : bool) (signaling : bool) (payload : N).

(** [s] without the prefix [p], when it starts with it. *)
Fixpoint strip_prefix (p s : string) : option string :=
  match p, s with
  | EmptyString, _ => Some s
  | String a p', String c r => if ascii_eqb a c then strip_prefix p' r else None
  | String _ _, EmptyString => None
  end.

(** A sign in front and what follows it; no sign is [+]. *)
Definition split_sign (s : string) : bool * string :=
  match s with
  | String c r =>
      if ascii_eqb c "-" then (true, r)
      else if ascii_eqb c "+" then (false, r)
      else (false, s)
  | EmptyString => (false, s)
  end.

(** One or more digits up to the end of the text. *)
Definition all_digits (s : string) : option Z :=
  match span_digits s with
  | (String c d, EmptyString) => Some (digits_value 0 (String c d))
  | _ => None
  end.

(** [[-+]?\d+\Z], the text after the exponent mark. *)
Definition exponent_value (s : string) : option Z :=
  let '(negative, r) := split_sign s in
  e ← all_digits r;
  Some (if negative then - e else e).

(** The syntax of a number: digits with an optional fraction and an
    optional exponent; there must be a digit before or right after the
    point.  The digits before the point, those after it and the exponent
    written ([0] when none is). *)
Definition finite_syntax (s : string) : option (string * string * Z) :=
  let '(intpart, r1) := span_digits s in
  let '(fracpart, r2) :=
    match strip_prefix "." r1 with
    | Some r => span_digits r
    | None => (EmptyString, r1)
    end in
  match intpart, fracpart with
  | EmptyString, EmptyString => None
  | _, _ =>
      match r2 with
      | EmptyString => Some (intpart, fracpart, 0)
      | String c r3 =>
          if ascii_eqb (lower c) "e"
          then e ← exponent_value r3; Some (intpart, fracpart, e)
          else None
      end
  end.

(** A text of digits without its leading zeros. *)
Fixpoint drop_zeros (s : string) : string :=
  match s with
  | EmptyString => EmptyString
  | String c r => if ascii_eqb c "0" then drop_zeros r else s
  end.

(** The limits of the exact conversion, those of the C implementation of
    [decimal] on a 64-bit build: the largest precision and exponent, and
    the least exponent a subnormal can have. *)
Definition MAX_PREC : Z := 999999999999999999.
Definition MAX_EMAX : Z := 999999999999999999.
Definition MIN_ETINY : Z := -1999999999999999997.

(** Whether the number written fits without rounding or clamping: the
    digits of the coefficient (one for a zero) and the places after the
    point within the precision, the exponent of the leading digit at most
    [MAX_EMAX], the exponent itself at least [MIN_ETINY]. *)
Definition exact (intpart fracpart : string) (e : Z) : bool :=
  let digits :=
    Z.max 1 (Z.of_nat (String.length (drop_zeros (intpart +:+ fracpart)))) in
  let places := Z.of_nat (String.length fracpart) in
  (places <=? MAX_PREC) && (digits <=? MAX_PREC)
  && (e - places + digits - 1 <=? MAX_EMAX) && (MIN_ETINY <=? e - places).

(** A number that the exact conversion accepts. *)
Definition finite_value (sign : bool) (s : string) : option Decimal :=
  '(intpart, fracpart, e) ← finite_syntax s;
  if exact intpart fracpart e
  then Some (Finite sign (Z.to_N (digits_value 0 (intpart +:+ fracpart)))
               (e - Z.of_nat (String.length fracpart)))
  else None.

(** [NaN], [sNaN], each with optional diagnostic digits. *)
Definition nan_value (sign : bool) (s : string) : option Decimal :=
  let payload (signaling : bool) (t : string) : option Decimal :=
    match span_digits t with
    | (d, EmptyString) =>
        if Z.of_nat (String.length (drop_zeros d)) <=? MAX_PREC
        then Some (NaN sign signaling (Z.to_N (digits_value 0 d)))
        else None
    | _ => None
    end in
  match strip_prefix "snan" (str_lower s) with
  | Some t => payload true t
  | None =>
      match strip_prefix "nan" (str_lower s) with
      | Some t => payload false t
      | None => None
      end
  end.

Definition special_value (sign : bool) (s : string) : option Decimal :=
  let l := str_lower s in
  if String.eqb l "inf" || String.eqb l "infinity"
  then Some (Infinity sign)
  else nan_value sign s.

Definition numeric_value (sign : bool) (s : string) : option Decimal :=
  match finite_value sign s with
  | Some d => Some d
  | None => special_value sign s
  end.

(** [decimal.Decimal(s)] for a string: white space around it and every
    underscore are dropped, then the numeric-string syntax is matched.
    [None] is [decimal.InvalidOperation].  The construction is exact: no
    context precision applies to it, and a number that would have to be
    rounded or clamped to fit the limits above is refused. *)
Definition Decimal_of_str (s : string) : option Decimal :=
  let '(sign, r) := split_sign (remove "_" (strip s)) in
  numeric_value sign r.

(** A text of digits only. *)
Fixpoint isdecimal (s : string) : bool :=
  match s with
  | EmptyString => true
  | String c r => isdigit c && isdecimal r
  end.

(** *** [datetime.datetime.strptime]

    An executable account of it for the formats a date setting is made of:
    literal characters, white space, [%%] and at most one each of [%Y],
    [%m] and [%d].  The format becomes a pattern that must match a prefix of
    the text, earlier alternatives of a directive first; text left over, a
    year 0 or a day the month does not have (in 1900 when the format has no
    year) is a [ValueError], here [None].  Formats outside this range are
    answered [None] as well, also where Python raises another error than
    [ValueError] (a directive given twice). *)
Record datetime : Type := mkdatetime { year : Z; month : Z; day : Z }.

Inductive directive : Type :=
| Lit (c : ascii) | Spaces | Year | Month | Day.

Fixpoint format_pattern (seen_space : bool) (format : string)
  : option (list directive) :=
  match format with
  | EmptyString => Some []
  | String "%" (String "Y" r) => cons Year <$> format_pattern false r
  | String "%" (String "m" r) => cons Month <$> format_pattern false r
  | String "%" (String "d" r) => cons Day <$> format_pattern false r
  | String "%" (String "%" r) => cons (Lit "%") <$> format_pattern false r
  | String "%" _ => None
  | String c r =>
      if isspace c
      then (if seen_space then format_pattern true r
            else cons Spaces <$> format_pattern true r)
      else cons (Lit c) <$> format_pattern false r
  end.

(** Fields found so far; a field given twice is outside the range. *)
Record fields : Type :=
  mkfields { f_year : option Z; f_month : option Z; f_day : option Z }.

Definition in_range (lo hi : nat) (c : ascii) : bool :=
  let n := nat_of_ascii c in ((lo <=? n) && (n <=? hi))%nat.

(** [(?P<Y>\d\d\d\d)] *)
Definition year_alternatives (s : string) : list (Z * string) :=
  match s with
  | String a (String b (String c (String d r))) =>
      if isdigit a && isdigit b && isdigit c && isdigit d
      then [(digits_value 0 (String a (String b (String c (String d EmptyString)))), r)]
      else []
  | _ => []
  end.

(** [(?P<m>1[0-2]|0[1-9]|[1-9])] *)
Definition month_alternatives (s : string) : list (Z * string) :=
  match s with
  | String a r =>
      match r with
      | String b r' =>
          (if ascii_eqb a "1" && in_range 48 50 b
           then [(10 + digit_value b, r')] else [])
          ++ (if ascii_eqb a "0" && in_range 49 57 b
              then [(digit_value b, r')] else [])
      | EmptyString => []
      end
      ++ (if in_range 49 57 a then [(digit_value a, r)] else [])
  | EmptyString => []
  end.

(** [(?P<d>3[0-1]|[1-2]\d|0[1-9]|[1-9]| [1-9])] *)
Definition day_alternatives (s : string) : list (Z * string) :=
  match s with
  | String a r =>
      match r with
      | String b r' =>
          (if ascii_eqb a "3" && in_range 48 49 b
           then [(30 + digit_value b, r')] else [])
          ++ (if in_range 49 50 a && isdigit b
              then [(10 * digit_value a + digit_value b, r')] else [])
          ++ (if ascii_eqb a "0" && in_range 49 57 b
              then [(digit_value b, r')] else [])
      | EmptyString => []
      end
      ++ (if in_range 49 57 a then [(digit_value a, r)] else [])
      ++ match r with
         | String b r' =>
             if ascii_eqb a " " && in_range 49 57 b
             then [(digit_value b, r')] else []
         | EmptyString => []
         end
  | EmptyString => []
  end.

(** The first alternative after which the rest of the pattern matches. *)
Fixpoint first_match {A B : Type} (k : A -> option B) (l : list A) : option B :=
  match l with
  | [] => None
  | a :: l' => match k a with Some b => Some b | None => first_match k l' end
  end.

(** [\s+], the longest run first. *)
Fixpoint match_spaces {B : Type} (k : string -> option B) (s : string) : option B :=
  match s with
  | EmptyString => None
  | String c r =>
      if isspace c
      then match match_spaces k r with Some b => Some b | None => k r end
      else None
  end.

Fixpoint match_pattern (p : list directive) (acc : fields) (s : string)
  : option (fields * string) :=
  match p with
  | [] => Some (acc, s)
  | Lit c :: p' =>
      match s with
      | String d r =>
          if ascii_eqb (lower c) (lower d) then match_pattern p' acc r else None
      | EmptyString => None
      end
  | Spaces :: p' => match_spaces (match_pattern p' acc) s
  | Year :: p' =>
      match f_year acc with
      | Some _ => None
      | None =>
          first_match
            (fun '(v, r) =>
               match_pattern p' (mkfields (Some v) (f_month acc) (f_day acc)) r)
            (year_alternatives s)
      end
  | Month :: p' =>
      match f_month acc with
      | Some _ => None
      | None =>
          first_match
            (fun '(v, r) =>
               match_pattern p' (mkfields (f_year acc) (Some v) (f_day acc)) r)
            (month_alternatives s)
      end
  | Day :: p' =>
      match f_day acc with
      | Some _ => None
      | None =>
          first_match
            (fun '(v, r) =>
               match_pattern p' (mkfields (f_year acc) (f_month acc) (Some v)) r)
            (day_alternatives s)
      end
  end.

Definition is_leap (y : Z) : bool :=
  (y mod 4 =? 0) && (negb (y mod 100 =? 0) || (y mod 400 =? 0)).

Definition days_in_month (y m : Z) : Z :=
  if m =? 2 then (if is_leap y then 29 else 28)
  else if (m =? 4) || (m =? 6) || (m =? 9) || (m =? 11) then 30
  else 31.

Definition strptime (data_string format : string) : option datetime :=
  p ← format_pattern false format;
  '(f, rest) ← match_pattern p (mkfields None None None) data_string;
  match rest with
  | String _ _ => None
  | EmptyString =>
      let m := default 1 (f_month f) in
      let d := default 1 (f_day f) in
      let y := default 1900 (f_year f) in
      if (1 <=? y) && (d <=? days_in_month y m)
      then Some (mkdatetime y m d)
      else None
  end.

End Py.

(** ** Data *)

(** One row of the registry CSV file, as [csv_helper.reader] hands it over:
    a dictionary with these seven keys, every value a string. *)
Record Row : Type := mkRow {
  ISIN : string;
  Name : string;
  EPS : string;
  Months_in_Report : string;
  Report_Expiry_Date : string;
  Own_Investor_Link : string;
  Stock_Exchange_Link : string
}.

(** The dictionary [_registry_row_from_csv] builds for one stock. *)
Record StockData : Type := mkStockData {
  sd_Name : string;
  sd_EPS : Py.Decimal;
  sd_Months_in_Report : string;
  sd_Report_Expiry_Date : string;
  sd_Own_Investor_Link : string;
  sd_Stock_Exchange_Link : string
}.

(** [class RegistryErrorDict(dict)]: the six keys [__init__] sets. *)
Record RegistryErrorDict : Type := mkErrors {
  Errors_found : bool;
  Number_of_missing_ISINs : Z;
  Faulty_ISINs : gset string;
  Missing_names : gset string;
  Faulty_months_in_report : gset string;
  Faulty_report_expiry_dates : gset string
}.

(** [RegistryErrorDict.__init__] *)
Definition RegistryErrorDict__init__ : RegistryErrorDict :=
  {| Errors_found := false;
     Number_of_missing_ISINs := 0;
     Faulty_ISINs := ∅;
     Missing_names := ∅;
     Faulty_months_in_report := ∅;
     Faulty_report_expiry_dates := ∅ |}.

(** What a key of the [Registry] dictionary is bound to: the error report
    under ['Errors'], a stock under its ISIN.  Both live in the one
    dictionary, [Registry] being a [dict] itself. *)
Inductive Value : Type :=
| VErrors (e : RegistryErrorDict)
| VStock (d : StockData).

Abbreviation Registry := (gmap string Value).

(** A line handed to [logging]: the level, the message and its arguments. *)
Inductive Level : Type := INFO | ERROR.

Record LogRecord : Type := mkLog {
  levelname : Level;
  msg : string;
  args : list Z
}.

(** The state a method runs in: the [Registry] object [self] and the lines
    logged so far, oldest first. *)
Record World : Type := mkWorld {
  self : gmap string Value;
  logged : list LogRecord
}.

(** ** Methods as state transformers that may raise *)

Inductive Exn : Type :=
| KeyError (key : string).

Inductive Result (A : Type) : Type :=
| Returns (a : A) (w : World)
| Raises (e : Exn).
Arguments Returns {A} a w.
Arguments Raises {A} e.

Definition M (A : Type) : Type := World -> Result A.

Definition ret {A : Type} (a : A) : M A := fun w => Returns a w.

Definition bind {A B : Type} (m : M A) (k : A -> M B) : M B :=
  fun w => match m w with
           | Returns a w' => k a w'
           | Raises e => Raises e
           end.

Definition raise {A : Type} (e : Exn) : M A := fun _ => Raises e.

Declare Scope py_scope.
Delimit Scope py_scope with py.
Notation "x <- m ;; k" := (bind m (fun x => k))
  (at level 100, m at next level, right associativity) : py_scope.
Notation "m ;; k" := (bind m (fun _ => k))
  (at level 100, right associativity) : py_scope.
Local Open Scope py_scope.

(** [self['Errors']] read as an error report.  A stock dictionary has none
    of the report's keys, so going through one raises [KeyError] as well. *)
Definition self_Errors : M RegistryErrorDict :=
  fun w => match self w !! "Errors" with
           | Some (VErrors e) => Returns e w
           | _ => Raises (KeyError "Errors")
           end.

(** A statement that changes the report in place: [self['Errors'][k] = v],
    [self['Errors'][k] += 1] or [self['Errors'][k].add(x)]. *)
Definition update_Errors (f : RegistryErrorDict -> RegistryErrorDict) : M unit :=
  e <- self_Errors ;;
  fun w => Returns tt (mkWorld (<["Errors" := VErrors (f e)]> (self w)) (logged w)).

Definition set_Errors_found (e : RegistryErrorDict) : RegistryErrorDict :=
  mkErrors true (Number_of_missing_ISINs e) (Faulty_ISINs e) (Missing_names e)
    (Faulty_months_in_report e) (Faulty_report_expiry_dates e).

Definition incr_Number_of_missing_ISINs (e : RegistryErrorDict) : RegistryErrorDict :=
  mkErrors (Errors_found e) (Number_of_missing_ISINs e + 1) (Faulty_ISINs e)
    (Missing_names e) (Faulty_months_in_report e) (Faulty_report_expiry_dates e).

Definition add_Faulty_ISINs (x : string) (e : RegistryErrorDict) : RegistryErrorDict :=
  mkErrors (Errors_found e) (Number_of_missing_ISINs e) ({[x]} ∪ Faulty_ISINs e)
    (Missing_names e) (Faulty_months_in_report e) (Faulty_report_expiry_dates e).

Definition add_Missing_names (x : string) (e : RegistryErrorDict) : RegistryErrorDict :=
  mkErrors (Errors_found e) (Number_of_missing_ISINs e) (Faulty_ISINs e)
    ({[x]} ∪ Missing_names e) (Faulty_months_in_report e)
    (Faulty_report_expiry_dates e).

Definition add_Faulty_months_in_report (x : string) (e : RegistryErrorDict)
  : RegistryErrorDict :=
  mkErrors (Errors_found e) (Number_of_missing_ISINs e) (Faulty_ISINs e)
    (Missing_names e) ({[x]} ∪ Faulty_months_in_report e)
    (Faulty_report_expiry_dates e).

Definition add_Faulty_report_expiry_dates (x : string) (e : RegistryErrorDict)
  : RegistryErrorDict :=
  mkErrors (Errors_found e) (Number_of_missing_ISINs e) (Faulty_ISINs e)
    (Missing_names e) (Faulty_months_in_report e)
    ({[x]} ∪ Faulty_report_expiry_dates e).

(** [logging.info] and [logging.error] *)
Definition logging (l : Level) (m : string) (a : list Z) : M unit :=
  fun w => Returns tt (mkWorld (self w) (logged w ++ [mkLog l m a])).

(** [len(self)] *)
Definition len_self : M Z :=
  fun w => Returns (Z.of_nat (size (self w))) w.

(** [self.update(d)]: the keys of [d] are bound to its values, the other
    keys of [self] stay. *)
Definition self_update (d : gmap string StockData) : M unit :=
  fun w => Returns tt (mkWorld ((VStock <$> d) ∪ self w) (logged w)).

(** [try: body except ValueError: handler], for a body that only computes:
    [None] is the body raising [ValueError]. *)
Definition try_except_ValueError (body : option unit) (handler : M unit) : M unit :=
  match body with
  | Some _ => ret tt
  | None => handler
  end.

(** [_string_to_decimal]: the result of [s.replace] is a new string that the
    source does not bind, so it is [s] itself that reaches [Decimal]. *)
Definition _string_to_decimal (s : string) : Py.Decimal :=
  let _unbound : option string :=
    if negb (Py.contains "." s) then Some (Py.replace "," "." s) else None in
  match Py.Decimal_of_str s with
  | Some d => d
  | None => default (Py.Finite false 0 0) (Py.Decimal_of_str "0")
  end.

(** ** class Registry *)

Section Registry.

(** [config['DEFAULT']['Date format']], read from [config.ini]. *)
Variable date_format : string.

(** [datetime.datetime.strptime], [None] where it raises [ValueError].
    Nothing is assumed of it; [Py.strptime] is an instance. *)
Variable strptime : string -> string -> option Py.datetime.

(** [sys.get_int_max_str_digits()], the limit [int] puts on the digits of
    a text; 0 is no limit. *)
Variable max_str_digits : nat.

(** [Registry.__init__], run on the empty dictionary of a new object. *)
Definition Registry__init__ : M unit :=
  logging INFO "Registry: Loading basic data from CSV." [] ;;
  fun w => Returns tt (mkWorld (<["Errors" := VErrors RegistryErrorDict__init__]> (self w))
                         (logged w)).

(** The [try] body of the months check. *)
Definition months_body (row : Row) : option unit :=
  months ← (if negb (String.eqb (Months_in_Report row) EmptyString)
            then Py.int max_str_digits (Months_in_Report row) else Some 0);
  if negb (bool_decide (months ∈ [0; 3; 6; 9; 12])) then None else Some tt.

(** The [try] body of the expiry-date check. *)
Definition expiry_body (row : Row) : option unit :=
  if negb (String.eqb (Report_Expiry_Date row) EmptyString)
  then _ ← strptime (Report_Expiry_Date row) date_format; Some tt
  else Some tt.

(** Lines 57-59: the name. *)
Definition name_check (row : Row) : M unit :=
  if String.eqb (Name row) EmptyString then
    update_Errors set_Errors_found ;;
    update_Errors (add_Missing_names (ISIN row))
  else ret tt.

(** Lines 61-67: the months in report. *)
Definition months_check (row : Row) : M unit :=
  try_except_ValueError (months_body row)
    (update_Errors set_Errors_found ;;
     update_Errors (add_Faulty_months_in_report (ISIN row))).

(** Lines 69-74: the report expiry date. *)
Definition expiry_check (row : Row) : M unit :=
  try_except_ValueError (expiry_body row)
    (update_Errors set_Errors_found ;;
     update_Errors (add_Faulty_report_expiry_dates (ISIN row))).

Definition _registry_row_is_addable (row : Row) : M bool :=
  if String.eqb (ISIN row) EmptyString then
    update_Errors set_Errors_found ;;
    update_Errors incr_Number_of_missing_ISINs ;;
    ret false
  else if negb (Nat.eqb (String.length (ISIN row)) 12) then
    update_Errors set_Errors_found ;;
    update_Errors (add_Faulty_ISINs (ISIN row)) ;;
    ret false
  else
    name_check row ;;
    months_check row ;;
    expiry_check row ;;
    ret true.

Definition _registry_row_from_csv (row : Row) : StockData :=
  {| sd_Name := Name row;
     sd_EPS := _string_to_decimal (EPS row);
     sd_Months_in_Report := Months_in_Report row;
     sd_Report_Expiry_Date := Report_Expiry_Date row;
     sd_Own_Investor_Link := Own_Investor_Link row;
     sd_Stock_Exchange_Link := Stock_Exchange_Link row |}.

(** The dictionary comprehension of [load_from_file]: the rows are taken
    in order, each is checked, which may change [self['Errors']], and an
    addable one is bound to its ISIN in the dictionary being built, over
    an earlier row of the same ISIN. *)
Fixpoint comprehension (rows : list Row) (d : gmap string StockData)
  : M (gmap string StockData) :=
  match rows with
  | [] => ret d
  | row :: rows' =>
      addable <- _registry_row_is_addable row ;;
      if addable
      then comprehension rows' (<[ISIN row := _registry_row_from_csv row]> d)
      else comprehension rows' d
  end.

(** [load_from_file]; [rows] is what
    [csv_helper.reader(config['Registry']['Registry filename'])] yields. *)
Definition load_from_file (rows : list Row) : M unit :=
  d <- comprehension rows ∅ ;;
  self_update d ;;
  n <- len_self ;;
  if negb (n =? 0) then
    e <- self_Errors ;;
    if negb (Errors_found e)
    then logging INFO "Registry: %d new ISIN loaded. No errors found." [n]
    else logging ERROR "Registry: The following errors found:" []
  else logging ERROR "Registry: No ISIN loaded." [].

End Registry.

(** The object [Registry()] hands to [__init__]: an empty dictionary. *)
Definition new_object : World := mkWorld ∅ [].

(** The stock entries of a registry dictionary. *)
Definition stocks (m : gmap string Value) : gmap string StockData :=
  omap (fun v => match v with VStock d => Some d | VErrors _ => None end) m.

(** The shape of a registry dictionary: the report under ['Errors'] and
    stocks under the other keys. *)
Definition registry_shape (m : gmap string Value) : Prop :=
  exists e (d : gmap string StockData),
    d !! "Errors" = None /\ m = <["Errors" := VErrors e]> (VStock <$> d).

(** The world with the error report replaced. *)
Definition with_Errors (e : RegistryErrorDict) (w : World) : World :=
  mkWorld (<["Errors" := VErrors e]> (self w)) (logged w).

(** ** What one row does to the report, as a function *)

Section Report.

Variable date_format : string.
Variable strptime : string -> string -> option Py.datetime.
Variable max_str_digits : nat.

Definition addable (row : Row) : bool :=
  negb (String.eqb (ISIN row) EmptyString)
  && Nat.eqb (String.length (ISIN row)) 12.

Definition after_name (row : Row) (e : RegistryErrorDict) : RegistryErrorDict :=
  if String.eqb (Name row) EmptyString
  then add_Missing_names (ISIN row) (set_Errors_found e) else e.

Definition after_months (row : Row) (e : RegistryErrorDict) : RegistryErrorDict :=
  match months_body max_str_digits row with
  | Some _ => e
  | None => add_Faulty_months_in_report (ISIN row) (set_Errors_found e)
  end.

Definition after_expiry (row : Row) (e : RegistryErrorDict) : RegistryErrorDict :=
  match expiry_body date_format strptime row with
  | Some _ => e
  | None => add_Faulty_report_expiry_dates (ISIN row) (set_Errors_found e)
  end.

Definition report_after (row : Row) (e : RegistryErrorDict) : RegistryErrorDict :=
  if String.eqb (ISIN row) EmptyString
  then incr_Number_of_missing_ISINs (set_Errors_found e)
  else if negb (Nat.eqb (String.length (ISIN row)) 12)
  then add_Faulty_ISINs (ISIN row) (set_Errors_found e)
  else after_expiry row (after_months row (after_name row e)).

(** Whether a row falls in one of the five failure categories. *)
Definition triggers (row : Row) : bool :=
  String.eqb (ISIN row) EmptyString
  || negb (Nat.eqb (String.length (ISIN row)) 12)
  || String.eqb (Name row) EmptyString
  || negb (bool_decide (is_Some (months_body max_str_digits row)))
  || negb (bool_decide (is_Some (expiry_body date_format strptime row))).

Definition report_after_rows (rows : list Row) (e : RegistryErrorDict)
  : RegistryErrorDict :=
  foldl (fun e row => report_after row e) e rows.

Definition dict_of_rows (rows : list Row) (d : gmap string StockData)
  : gmap string StockData :=
  foldl (fun d row =>
           if addable row then <[ISIN row := _registry_row_from_csv row]> d else d)
        d rows.

(** The dictionary [load_from_file] leaves. *)
Definition loaded_dict (rows : list Row) (e : RegistryErrorDict)
    (m : gmap string Value) : gmap string Value :=
  (VStock <$> dict_of_rows rows ∅)
  ∪ <["Errors" := VErrors (report_after_rows rows e)]> m.

(** The line [load_from_file] logs. *)
Definition loaded_line (rows : list Row) (e : RegistryErrorDict)
    (m : gmap string Value) : LogRecord :=
  if negb (Errors_found (report_after_rows rows e))
  then mkLog INFO "Registry: %d new ISIN loaded. No errors found."
         [Z.of_nat (size (loaded_dict rows e m))]
  else mkLog ERROR "Registry: The following errors found:" [].


(** The months code read the way the check reads it: the empty string
    stands for 0, any other string is handed to [int]. *)
Definition months_parsed (row : Row) : option Z :=
  if String.eqb (Months_in_Report row) EmptyString
  then Some 0 else Py.int max_str_digits (Months_in_Report row).

(** The code does not parse, or is none of 0, 3, 6, 9 and 12. *)
Definition months_invalid (row : Row) : bool :=
  match months_parsed row with
  | None => true
  | Some n => negb (bool_decide (n ∈ [0; 3; 6; 9; 12]))
  end.

(** A row one of the two ISIN rules rejects. *)
Definition rejected (row : Row) : bool :=
  String.eqb (ISIN row) EmptyString
  || negb (Nat.eqb (String.length (ISIN row)) 12).

(** A row with a 12-character ISIN, a name, a months code among the five
    accepted texts and an expiry date that is empty or parses. *)
Definition fields_valid (row : Row) : bool :=
  Nat.eqb (String.length (ISIN row)) 12
  && negb (String.eqb (Name row) EmptyString)
  && bool_decide (Months_in_Report row ∈ [EmptyString; "3"; "6"; "9"; "12"])
  && (String.eqb (Report_Expiry_Date row) EmptyString
      || bool_decide (is_Some (strptime (Report_Expiry_Date row) date_format))).

(** The worlds a [Registry] object goes through: it is constructed on an
    empty dictionary, then checks rows and loads batches. *)
Inductive reachable : World -> Prop :=
| reach_init l w :
    Registry__init__ (mkWorld ∅ l) = Returns tt w -> reachable w
| reach_check w row b w' :
    reachable w ->
    _registry_row_is_addable date_format strptime max_str_digits row w = Returns b w' ->
    reachable w'
| reach_load w rows w' :
    reachable w ->
    load_from_file date_format strptime max_str_digits rows w = Returns tt w' ->
    reachable w'.

End Report.

(** The row with another EPS text. *)
Definition with_EPS (s : string) (row : Row) : Row :=
  mkRow (ISIN row) (Name row) s (Months_in_Report row) (Report_Expiry_Date row)
    (Own_Investor_Link row) (Stock_Exchange_Link row).

(** The world [Registry()] leaves when nothing was logged before. *)
Definition Registry_new : World :=
  mkWorld {["Errors" := VErrors RegistryErrorDict__init__]}
    [mkLog INFO "Registry: Loading basic data from CSV." []].

(** [Decimal('0')] *)
Definition Decimal_0 : Py.Decimal := Py.Finite false 0 0.

(** The date format of the tests, the default limit of [int], and some
    rows. *)
Definition test_date_format : string := "%Y.%m.%d".

Definition test_max_str_digits : nat := 4300.

Definition acceptable_row : Row :=
  mkRow "123456789012" "Company" "12.34" "3" "2000.01.01" "http" "http".

Definition row_without_ISIN : Row :=
  mkRow EmptyString EmptyString "1,5" "4" "20000.01.01" "http" "http".

Definition row_with_short_ISIN : Row :=
  mkRow "12345678901" EmptyString "1,5" "4" "20000.01.01" "http" "http".

Definition other_row : Row :=
  mkRow "ABCDEFGHIJKL" "Other" "1,5" EmptyString EmptyString EmptyString EmptyString.

Definition row_with_bad_months : Row :=
  mkRow "123456789012" "Company" "12.34" "4" "2000.01.01" "http" "http".

Definition row_with_bad_date : Row :=
  mkRow "123456789012" "Company" "12.34" "3" "20000.01.01" "http" "http".

(** The new registry after [acceptable_row] is loaded into it. *)
Definition Registry_loaded : World :=
  match load_from_file test_date_format Py.strptime test_max_str_digits [acceptable_row] Registry_new with
  | Returns _ w => w
  | Raises _ => Registry_new
  end.

(** A row with an ISIN and nothing right besides. *)
Definition row_with_soft_errors : Row :=
  mkRow "123456789012" EmptyString "1,5" "4" "20000.01.01" "http" "http".

(** The new registry after a batch with a row of each kind is loaded. *)
Definition Registry_with_errors : World :=
  match load_from_file test_date_format Py.strptime test_max_str_digits
          [row_without_ISIN; row_with_short_ISIN; row_with_soft_errors;
           acceptable_row] Registry_new with
  | Returns _ w => w
  | Raises _ => Registry_new
  end.

(** The report of [Registry_with_errors]. *)
Definition report_with_errors : RegistryErrorDict :=
  mkErrors true 1 {["12345678901"]} {["123456789012"]} {["123456789012"]}
    {["123456789012"]}.

(** A row with its fields right but for the months text [m]. *)
Definition row_with_months (m : string) : Row :=
  mkRow "123456789012" "Company" "12.34" m "2000.01.01" "http" "http".

(** A months text of [n] zeros. *)
Definition zeros (n : nat) : string := string_of_list_ascii (repeat "0"%char n).

(** ** A batch of rows, sorted by what the check finds *)

Section Batch.

Variable date_format : string.
Variable strptime : string -> string -> option Py.datetime.
Variable max_str_digits : nat.

(** The expiry-date text is not empty and [strptime] rejects it. *)
Definition expiry_invalid (row : Row) : bool :=
  negb (String.eqb (Report_Expiry_Date row) EmptyString)
  && negb (bool_decide (is_Some (strptime (Report_Expiry_Date row) date_format))).

(** The five categories, each as the check reaches it: the two ISIN rules
    first, the three others only for a row that passed them. *)
Definition missing_ISIN (row : Row) : bool :=
  String.eqb (ISIN row) EmptyString.

Definition faulty_ISIN (row : Row) : bool :=
  negb (String.eqb (ISIN row) EmptyString)
  && negb (Nat.eqb (String.length (ISIN row)) 12).

Definition missing_name (row : Row) : bool :=
  addable row && String.eqb (Name row) EmptyString.

Definition faulty_months (row : Row) : bool :=
  addable row && months_invalid max_str_digits row.

Definition faulty_expiry (row : Row) : bool :=
  addable row && expiry_invalid row.

(** The row falls in one of the five categories. *)
Definition in_a_category (row : Row) : bool :=
  missing_ISIN row || faulty_ISIN row || missing_name row
  || faulty_months row || faulty_expiry row.

(** The ISINs of the rows of a batch that [p] picks. *)
Definition ISINs_where (p : Row -> bool) (rows : list Row) : gset string :=
  list_to_set (ISIN <$> List.filter p rows).

(** The last addable row of a batch with the ISIN [k]. *)
Fixpoint last_addable (k : string) (rows : list Row) : option Row :=
  match rows with
  | [] => None
  | row :: rows' =>
      match last_addable k rows' with
      | Some r => Some r
      | None => if addable row && String.eqb (ISIN row) k then Some row else None
      end
  end.

(** A text with a sign in front: none, [+] or [-]. *)
Definition signed (negative : option bool) (s : string) : string :=
  match negative with
  | None => s
  | Some false => String "+" s
  | Some true => String "-" s
  end.

Definition is_negative (negative : option bool) : bool :=
  match negative with Some true => true | _ => false end.

(** A text of white space only, the empty text included. *)
Fixpoint blank (s : string) : bool :=
  match s with
  | EmptyString => true
  | String c r => Py.isspace c && blank r
  end.

(** What the report holds agrees with its flag: nothing is recorded while
    the flag is [False], something is once it is [True]. *)
Definition flag_agrees (e : RegistryErrorDict) : Prop :=
  0 <= Number_of_missing_ISINs e
  /\ (Errors_found e = false -> e = RegistryErrorDict__init__)
  /\ (Errors_found e = true ->
      0 < Number_of_missing_ISINs e
      \/ Faulty_ISINs e ≠ ∅ \/ Missing_names e ≠ ∅
      \/ Faulty_months_in_report e ≠ ∅ \/ Faulty_report_expiry_dates e ≠ ∅).

(** Which ISINs each set of the report can hold. *)
Definition sets_sorted (e : RegistryErrorDict) : Prop :=
  (forall k, k ∈ Faulty_ISINs e ->
             k ≠ EmptyString /\ String.length k ≠ 12%nat)
  /\ (forall k, k ∈ Missing_names e ∪ Faulty_months_in_report e
                   ∪ Faulty_report_expiry_dates e ->
                String.length k = 12%nat).

End Batch.

(** ** No decimal is written with a comma *)

Section Comma.

Import Py.

Lemma ascii_eqb_eq a b : ascii_eqb a b = true <-> a = b.
Proof. apply Ascii.eqb_eq. Qed.

Lemma isspace_not_comma c : isspace c = true -> ascii_eqb "," c = false.
Proof.
  intros H. destruct (ascii_eqb "," c) eqn:E; [|done].
  apply ascii_eqb_eq in E. subst c. discriminate H.
Qed.

Lemma isdigit_not_comma c : isdigit c = true -> ascii_eqb "," c = false.
Proof.
  intros H. destruct (ascii_eqb "," c) eqn:E; [|done].
  apply ascii_eqb_eq in E. subst c. discriminate H.
Qed.

Lemma contains_nonempty c s : contains c s = true -> s ≠ EmptyString.
Proof. by destruct s. Qed.

Lemma contains_lstrip s :
  contains "," s = true -> contains "," (lstrip s) = true.
Proof.
  induction s as [|c r IH]; [done|]. intros H. cbn [lstrip].
  destruct (isspace c) eqn:W; [|done].
  apply IH. cbn [contains] in H. by rewrite (isspace_not_comma c W) in H.
Qed.

Lemma contains_rstrip s :
  contains "," s = true -> contains "," (rstrip s) = true.
Proof.
  induction s as [|c r IH]; [done|]. intros H. cbn [rstrip contains] in *.
  destruct (ascii_eqb "," c) eqn:E.
  - destruct (rstrip r); [|by cbn [contains]; rewrite E].
    destruct (isspace c) eqn:W; [|by cbn [contains]; rewrite E].
    by rewrite (isspace_not_comma c W) in E.
  - simpl in H. specialize (IH H).
    destruct (rstrip r) as [|c' r']; [discriminate IH|].
    cbn [contains] in *. by rewrite IH, orb_true_r.
Qed.

Lemma contains_remove a s :
  ascii_eqb "," a = false ->
  contains "," s = true -> contains "," (remove a s) = true.
Proof.
  intros N. induction s as [|c r IH]; [done|]. intros H.
  cbn [remove contains] in *. destruct (ascii_eqb c a) eqn:E.
  - apply ascii_eqb_eq in E. subst c. rewrite N in H. by apply IH.
  - cbn [contains]. destruct (ascii_eqb "," c); [done|]. by apply IH.
Qed.

Lemma contains_split_sign s :
  contains "," s = true -> contains "," (split_sign s).2 = true.
Proof.
  destruct s as [|c r]; [done|]. intros H. unfold split_sign.
  destruct (ascii_eqb c "-") eqn:A.
  { apply ascii_eqb_eq in A. by subst c. }
  destruct (ascii_eqb c "+") eqn:B; [|done].
  apply ascii_eqb_eq in B. by subst c.
Qed.

Lemma contains_span_digits s :
  contains "," s = true -> contains "," (span_digits s).2 = true.
Proof.
  induction s as [|c r IH]; [done|]. intros H. cbn [span_digits].
  destruct (isdigit c) eqn:D; [|done].
  cbn [contains] in H. rewrite (isdigit_not_comma c D) in H.
  specialize (IH H). by destruct (span_digits r).
Qed.

Lemma contains_strip_prefix p : forall s t,
  contains "," p = false ->
  strip_prefix p s = Some t ->
  contains "," s = true -> contains "," t = true.
Proof.
  induction p as [|a p IH]; intros s t N S H.
  - by inversion S; subst.
  - destruct s as [|c r]; [done|]. cbn [strip_prefix] in S.
    destruct (ascii_eqb a c) eqn:E; [|done].
    apply ascii_eqb_eq in E. subst c. cbn [contains] in *.
    apply orb_false_iff in N as [N1 N2]. rewrite N1 in H.
    by apply (IH r t).
Qed.

Lemma lower_comma c : ascii_eqb "," (lower c) = ascii_eqb "," c.
Proof. by destruct c as [[] [] [] [] [] [] [] []]. Qed.

Lemma contains_str_lower s : contains "," (str_lower s) = contains "," s.
Proof.
  induction s as [|c r IH]; [done|]. cbn [str_lower contains].
  by rewrite lower_comma, IH.
Qed.

Lemma all_digits_comma s : contains "," s = true -> all_digits s = None.
Proof.
  intros H. unfold all_digits. pose proof (contains_span_digits s H) as C.
  destruct (span_digits s) as [d t]. simpl in C.
  destruct t; [discriminate C|]. by destruct d.
Qed.

Lemma exponent_value_comma s :
  contains "," s = true -> exponent_value s = None.
Proof.
  intros H. unfold exponent_value. pose proof (contains_split_sign s H) as C.
  destruct (split_sign s) as [neg r]. simpl in C.
  by rewrite (all_digits_comma r C).
Qed.

Lemma finite_syntax_comma s :
  contains "," s = true -> finite_syntax s = None.
Proof.
  intros H. unfold finite_syntax.
  pose proof (contains_span_digits s H) as C1.
  destruct (span_digits s) as [intpart r1]. cbn [snd] in C1.
  assert (forall fracpart r2,
            contains "," r2 = true ->
            match intpart, fracpart with
            | EmptyString, EmptyString => None
            | _, _ =>
                match r2 with
                | EmptyString => Some (intpart, fracpart, 0)
                | String c r3 =>
                    if ascii_eqb (lower c) "e"
                    then e ← exponent_value r3; Some (intpart, fracpart, e)
                    else None
                end
            end = None) as K.
  { intros fracpart r2 C2. destruct r2 as [|c r3]; [discriminate C2|].
    assert ((if ascii_eqb (lower c) "e"
             then e ← exponent_value r3; Some (intpart, fracpart, e)
             else None) = None) as ->.
    { destruct (ascii_eqb (lower c) "e") eqn:E; [|done].
      cbn [contains] in C2. rewrite <- lower_comma in C2.
      apply ascii_eqb_eq in E. rewrite E in C2. simpl in C2.
      by rewrite (exponent_value_comma r3 C2). }
    by destruct intpart, fracpart. }
  destruct (strip_prefix "." r1) as [r|] eqn:P.
  - pose proof (contains_strip_prefix "." r1 r eq_refl P C1) as C.
    apply contains_span_digits in C.
    destruct (span_digits r) as [fracpart r2]. by apply K.
  - exact (K EmptyString r1 C1).
Qed.

Lemma finite_value_comma sign s :
  contains "," s = true -> finite_value sign s = None.
Proof.
  intros H. unfold finite_value. by rewrite (finite_syntax_comma s H).
Qed.

Lemma nan_value_comma sign s :
  contains "," s = true -> nan_value sign s = None.
Proof.
  intros H. unfold nan_value. rewrite <- contains_str_lower in H.
  assert (forall signaling t,
            contains "," t = true ->
            match span_digits t with
            | (d, EmptyString) =>
                if Z.of_nat (String.length (drop_zeros d)) <=? MAX_PREC
                then Some (NaN sign signaling (Z.to_N (digits_value 0 d)))
                else None
            | _ => None
            end = None) as K.
  { intros signaling t C. apply contains_span_digits in C.
    destruct (span_digits t) as [d r]. simpl in C. by destruct r. }
  destruct (strip_prefix "snan" (str_lower s)) as [t|] eqn:P.
  { apply K. by apply (contains_strip_prefix "snan" (str_lower s) t). }
  destruct (strip_prefix "nan" (str_lower s)) as [t|] eqn:Q; [|done].
  apply K. by apply (contains_strip_prefix "nan" (str_lower s) t).
Qed.

Lemma special_value_comma sign s :
  contains "," s = true -> special_value sign s = None.
Proof.
  intros H. unfold special_value.
  destruct (String.eqb (str_lower s) "inf") eqn:A.
  { apply String.eqb_eq in A. rewrite <- contains_str_lower, A in H.
    discriminate H. }
  destruct (String.eqb (str_lower s) "infinity") eqn:B.
  { apply String.eqb_eq in B. rewrite <- contains_str_lower, B in H.
    discriminate H. }
  by apply nan_value_comma.
Qed.

(** [Decimal] rejects every text with a "," in it. *)
Lemma Decimal_of_str_comma s :
  contains "," s = true -> Decimal_of_str s = None.
Proof.
  intros H. unfold Decimal_of_str, strip.
  apply contains_lstrip, contains_rstrip in H.
  apply (contains_remove "_") in H; [|done].
  apply contains_split_sign in H.
  destruct (split_sign _) as [sign r]. cbn [snd] in H.
  unfold numeric_value.
  by rewrite (finite_value_comma sign r H), (special_value_comma sign r H).
Qed.

End Comma.

(** ** A plain decimal text is taken digit for digit *)

Section Plain.

Import Py.

Lemma isdigit_plain_char c :
  isdigit c = true ->
  isspace c = false /\ ascii_eqb c "_" = false /\ ascii_eqb c "-" = false
  /\ ascii_eqb c "+" = false /\ ascii_eqb c "." = false.
Proof.
  destruct c as [[] [] [] [] [] [] [] []]; intros H; vm_compute in H;
    first [discriminate H | by repeat split].
Qed.

Lemma append_empty s : EmptyString +:+ s = s.
Proof. reflexivity. Qed.

Lemma append_String c s t : String c s +:+ t = String c (s +:+ t).
Proof. reflexivity. Qed.

Lemma append_empty_r s : s +:+ EmptyString = s.
Proof.
  induction s as [|c s IH]; [done|]. by rewrite append_String, IH.
Qed.

Lemma span_digits_app i r :
  isdecimal i = true ->
  span_digits (i +:+ r) = (i +:+ (span_digits r).1, (span_digits r).2).
Proof.
  induction i as [|c i IH]; intros H.
  - rewrite !append_empty. by destruct (span_digits r).
  - cbn [isdecimal] in H. apply andb_true_iff in H as [D H].
    rewrite !append_String. cbn [span_digits]. by rewrite D, (IH H).
Qed.

Lemma span_digits_all f :
  isdecimal f = true -> span_digits f = (f, EmptyString).
Proof.
  induction f as [|c f IH]; intros H; [done|]. cbn [isdecimal span_digits] in *.
  apply andb_true_iff in H as [D H]. by rewrite D, (IH H).
Qed.

Lemma rstrip_digits_point i f :
  isdecimal i = true -> isdecimal f = true ->
  rstrip (i +:+ String "." f) = i +:+ String "." f.
Proof.
  intros Hi Hf.
  assert (rstrip f = f) as Rf.
  { clear Hi. induction f as [|c f IH]; [done|]. cbn [isdecimal rstrip] in *.
    apply andb_true_iff in Hf as [D H]. rewrite (IH H).
    destruct (isdigit_plain_char c D) as (-> & _). by destruct f. }
  assert (rstrip (String "." f) = String "." f) as Rp.
  { cbn [rstrip]. rewrite Rf. by destruct f. }
  induction i as [|c i IH]; [exact Rp|].
  cbn [isdecimal] in Hi. apply andb_true_iff in Hi as [D H].
  rewrite append_String. cbn [rstrip]. rewrite (IH H).
  destruct i; by rewrite ?append_String, ?append_empty.
Qed.

Lemma lstrip_digits_point i f :
  isdecimal i = true ->
  lstrip (i +:+ String "." f) = i +:+ String "." f.
Proof.
  destruct i as [|c i]; [done|]. rewrite append_String.
  cbn [isdecimal lstrip]. intros H.
  apply andb_true_iff in H as [D _].
  by destruct (isdigit_plain_char c D) as (-> & _).
Qed.

Lemma remove_digits i :
  isdecimal i = true -> remove "_" i = i.
Proof.
  induction i as [|c i IH]; [done|]. cbn [isdecimal remove]. intros H.
  apply andb_true_iff in H as [D H].
  destruct (isdigit_plain_char c D) as (_ & -> & _). by rewrite (IH H).
Qed.

Lemma remove_digits_point i f :
  isdecimal i = true -> isdecimal f = true ->
  remove "_" (i +:+ String "." f) = i +:+ String "." f.
Proof.
  intros Hi Hf. induction i as [|c i IH].
  - rewrite append_empty. cbn [remove].
    assert (ascii_eqb "." "_" = false) as -> by done.
    by rewrite (remove_digits f Hf).
  - rewrite append_String. cbn [isdecimal remove] in *.
    apply andb_true_iff in Hi as [D H].
    destruct (isdigit_plain_char c D) as (_ & -> & _). by rewrite (IH H).
Qed.

Lemma split_sign_digits_point i f :
  isdecimal i = true ->
  split_sign (i +:+ String "." f) = (false, i +:+ String "." f).
Proof.
  destruct i as [|c i]; [done|]. rewrite append_String.
  cbn [isdecimal split_sign].
  intros H. apply andb_true_iff in H as [D _].
  by destruct (isdigit_plain_char c D) as (_ & _ & -> & -> & _).
Qed.

Lemma rstrip_digits i : isdecimal i = true -> rstrip i = i.
Proof.
  induction i as [|c i IH]; [done|]. cbn [isdecimal rstrip]. intros H.
  apply andb_true_iff in H as [D H]. rewrite (IH H).
  destruct (isdigit_plain_char c D) as (-> & _). by destruct i.
Qed.

Lemma lstrip_digits i : isdecimal i = true -> lstrip i = i.
Proof.
  destruct i as [|c i]; [done|]. cbn [isdecimal lstrip]. intros H.
  apply andb_true_iff in H as [D _].
  by destruct (isdigit_plain_char c D) as (-> & _).
Qed.

Lemma split_sign_digits i :
  isdecimal i = true -> split_sign i = (false, i).
Proof.
  destruct i as [|c i]; [done|]. cbn [isdecimal split_sign].
  intros H. apply andb_true_iff in H as [D _].
  by destruct (isdigit_plain_char c D) as (_ & _ & -> & -> & _).
Qed.

Lemma lstrip_String c r :
  lstrip (String c r) = if isspace c then lstrip r else String c r.
Proof. reflexivity. Qed.

Lemma rstrip_String c r :
  rstrip (String c r)
  = match rstrip r with
    | EmptyString => if isspace c then EmptyString else String c EmptyString
    | String a t => String c (String a t)
    end.
Proof. reflexivity. Qed.

Lemma remove_String a c r :
  remove a (String c r)
  = if ascii_eqb c a then remove a r else String c (remove a r).
Proof. reflexivity. Qed.

(** A sign in front of a text that has no white space at its ends, no
    underscore and no sign of its own is read as the sign of the number. *)
Lemma Decimal_of_str_signed sg body :
  body ≠ EmptyString ->
  lstrip body = body -> rstrip body = body ->
  remove "_" body = body -> split_sign body = (false, body) ->
  Decimal_of_str (signed sg body) = numeric_value (is_negative sg) body.
Proof.
  intros N L R U S. unfold Decimal_of_str, strip.
  destruct sg as [[]|]; cbn [signed is_negative].
  - rewrite (lstrip_String "-" body).
    assert (isspace "-" = false) as -> by done.
    rewrite (rstrip_String "-" body), R.
    destruct body as [|c r]; [done|].
    rewrite (remove_String "_" "-" (String c r)).
    assert (ascii_eqb "-" "_" = false) as -> by done.
    by rewrite U.
  - rewrite (lstrip_String "+" body).
    assert (isspace "+" = false) as -> by done.
    rewrite (rstrip_String "+" body), R.
    destruct body as [|c r]; [done|].
    rewrite (remove_String "_" "+" (String c r)).
    assert (ascii_eqb "+" "_" = false) as -> by done.
    by rewrite U.
  - by rewrite L, R, U, S.
Qed.

Lemma length_drop_zeros s :
  (String.length (drop_zeros s) <= String.length s)%nat.
Proof.
  induction s as [|c s IH]; [done|]. cbn [drop_zeros].
  destruct (ascii_eqb c "0"); cbn [String.length]; lia.
Qed.

Lemma length_append s t :
  String.length (s +:+ t) = (String.length s + String.length t)%nat.
Proof.
  induction s as [|c s IH]; [done|]. rewrite append_String.
  cbn [String.length]. by rewrite IH.
Qed.

(** A number written without exponent is within the limits, unless it has
    more digits than the C implementation can hold. *)
Lemma exact_plain i f :
  Z.of_nat (String.length (i +:+ f)) <= MAX_PREC ->
  exact i f 0 = true.
Proof.
  intros B. unfold exact.
  pose proof (length_drop_zeros (i +:+ f)) as D.
  rewrite length_append in B, D.
  unfold MAX_PREC, MAX_EMAX, MIN_ETINY in *.
  repeat (apply andb_true_iff; split); apply Z.leb_le; lia.
Qed.

Lemma finite_syntax_plain i f :
  isdecimal i = true -> isdecimal f = true ->
  i +:+ f ≠ EmptyString ->
  finite_syntax (i +:+ String "." f) = Some (i, f, 0).
Proof.
  intros Hi Hf N. unfold finite_syntax.
  rewrite (span_digits_app i (String "." f) Hi). cbn [span_digits].
  assert (isdigit "." = false) as -> by done. cbn [fst snd].
  rewrite append_empty_r. cbn [strip_prefix].
  assert (ascii_eqb "." "." = true) as -> by done.
  rewrite (span_digits_all f Hf).
  destruct i as [|a i], f as [|b f]; try done.
Qed.

Lemma finite_syntax_integer i :
  isdecimal i = true -> i ≠ EmptyString ->
  finite_syntax i = Some (i, EmptyString, 0).
Proof.
  intros Hi N. unfold finite_syntax. rewrite (span_digits_all i Hi).
  cbn [strip_prefix]. by destruct i.
Qed.

(** Digits, a point and digits, with a digit on one side at least and an
    optional sign in front: the coefficient is the digits as they stand,
    the exponent counts the places after the point. *)
Lemma Decimal_of_str_plain sg i f :
  isdecimal i = true -> isdecimal f = true ->
  i +:+ f ≠ EmptyString ->
  Z.of_nat (String.length (i +:+ f)) <= MAX_PREC ->
  Decimal_of_str (signed sg (i +:+ String "." f))
  = Some (Finite (is_negative sg) (Z.to_N (digits_value 0 (i +:+ f)))
            (- Z.of_nat (String.length f))).
Proof.
  intros Hi Hf N B.
  rewrite (Decimal_of_str_signed sg (i +:+ String "." f)).
  - unfold numeric_value, finite_value.
    rewrite (finite_syntax_plain i f Hi Hf N). cbn.
    by rewrite (exact_plain i f B).
  - destruct i; discriminate.
  - by apply lstrip_digits_point.
  - by apply rstrip_digits_point.
  - by apply remove_digits_point.
  - by apply split_sign_digits_point.
Qed.

(** Digits only, with an optional sign in front: an integer, exponent 0. *)
Lemma Decimal_of_str_integer sg i :
  isdecimal i = true -> i ≠ EmptyString ->
  Z.of_nat (String.length i) <= MAX_PREC ->
  Decimal_of_str (signed sg i)
  = Some (Finite (is_negative sg) (Z.to_N (digits_value 0 i)) 0).
Proof.
  intros Hi N B.
  rewrite (Decimal_of_str_signed sg i N (lstrip_digits i Hi)
             (rstrip_digits i Hi) (remove_digits i Hi) (split_sign_digits i Hi)).
  unfold numeric_value, finite_value.
  rewrite (finite_syntax_integer i Hi N). cbn.
  rewrite append_empty_r. rewrite <- (append_empty_r i) in B.
  by rewrite (exact_plain i EmptyString B).
Qed.

End Plain.

(** ** Running the methods *)

Section Run.

Variable date_format : string.
Variable strptime : string -> string -> option Py.datetime.
Variable max_str_digits : nat.

Lemma with_Errors_lookup e w : self (with_Errors e w) !! "Errors" = Some (VErrors e).
Proof. apply lookup_insert_eq. Qed.

Lemma with_Errors_twice e e' w : with_Errors e' (with_Errors e w) = with_Errors e' w.
Proof. unfold with_Errors; simpl. by rewrite insert_insert_eq. Qed.

Lemma with_Errors_same e w :
  self w !! "Errors" = Some (VErrors e) -> with_Errors e w = w.
Proof.
  intros H. destruct w as [m l]; unfold with_Errors; simpl in *.
  by rewrite insert_id.
Qed.

Lemma update_Errors_run f e w :
  self w !! "Errors" = Some (VErrors e) ->
  update_Errors f w = Returns tt (with_Errors (f e) w).
Proof. intros H. unfold update_Errors, bind, self_Errors. by rewrite H. Qed.

Lemma update_Errors_twice f g e w :
  self w !! "Errors" = Some (VErrors e) ->
  (update_Errors f ;; update_Errors g) w = Returns tt (with_Errors (g (f e)) w).
Proof.
  intros H. unfold bind at 1. rewrite (update_Errors_run f e w H).
  rewrite (update_Errors_run g (f e)) by apply with_Errors_lookup.
  by rewrite with_Errors_twice.
Qed.

Lemma name_check_run row e w :
  self w !! "Errors" = Some (VErrors e) ->
  name_check row w = Returns tt (with_Errors (after_name row e) w).
Proof.
  intros H. unfold name_check, after_name.
  destruct (String.eqb (Name row) EmptyString).
  - by apply update_Errors_twice.
  - unfold ret. by rewrite with_Errors_same.
Qed.

Lemma months_check_run row e w :
  self w !! "Errors" = Some (VErrors e) ->
  months_check max_str_digits row w = Returns tt (with_Errors (after_months max_str_digits row e) w).
Proof.
  intros H. unfold months_check, after_months, try_except_ValueError.
  destruct (months_body max_str_digits row).
  - unfold ret. by rewrite with_Errors_same.
  - by apply update_Errors_twice.
Qed.

Lemma expiry_check_run row e w :
  self w !! "Errors" = Some (VErrors e) ->
  expiry_check date_format strptime row w
  = Returns tt (with_Errors (after_expiry date_format strptime row e) w).
Proof.
  intros H. unfold expiry_check, after_expiry, try_except_ValueError.
  destruct (expiry_body date_format strptime row).
  - unfold ret. by rewrite with_Errors_same.
  - by apply update_Errors_twice.
Qed.

(** The check returns, and this is what it returns and leaves. *)
Lemma _registry_row_is_addable_run row e w :
  self w !! "Errors" = Some (VErrors e) ->
  _registry_row_is_addable date_format strptime max_str_digits row w
  = Returns (addable row) (with_Errors (report_after date_format strptime max_str_digits row e) w).
Proof.
  intros H. unfold _registry_row_is_addable, addable, report_after.
  destruct (String.eqb (ISIN row) EmptyString); simpl.
  - unfold bind at 1. rewrite (update_Errors_run _ e w H).
    unfold bind. rewrite (update_Errors_run _ (set_Errors_found e))
      by apply with_Errors_lookup.
    unfold ret. by rewrite with_Errors_twice.
  - destruct (Nat.eqb (String.length (ISIN row)) 12); simpl.
    + unfold bind at 1. rewrite (name_check_run row e w H).
      unfold bind at 1. rewrite (months_check_run row (after_name row e))
        by apply with_Errors_lookup.
      unfold bind at 1.
      rewrite (expiry_check_run row (after_months max_str_digits row (after_name row e)))
        by apply with_Errors_lookup.
      unfold ret. by rewrite !with_Errors_twice.
    + unfold bind at 1. rewrite (update_Errors_run _ e w H).
      unfold bind. rewrite (update_Errors_run _ (set_Errors_found e))
        by apply with_Errors_lookup.
      unfold ret. by rewrite with_Errors_twice.
Qed.

Lemma comprehension_run rows : forall d e w,
  self w !! "Errors" = Some (VErrors e) ->
  comprehension date_format strptime max_str_digits rows d w
  = Returns (dict_of_rows rows d)
      (with_Errors (report_after_rows date_format strptime max_str_digits rows e) w).
Proof.
  induction rows as [|row rows IH]; intros d e w H; simpl.
  - unfold ret. by rewrite with_Errors_same.
  - unfold bind. rewrite (_registry_row_is_addable_run row e w H).
    destruct (addable row);
      rewrite (IH _ (report_after date_format strptime max_str_digits row e))
        by apply with_Errors_lookup;
      by rewrite with_Errors_twice.
Qed.

Lemma addable_not_Errors row : addable row = true -> ISIN row ≠ "Errors".
Proof.
  unfold addable. intros H E. rewrite E in H. discriminate H.
Qed.

Lemma dict_of_rows_Errors rows : forall d,
  d !! "Errors" = None -> dict_of_rows rows d !! "Errors" = None.
Proof.
  induction rows as [|row rows IH]; intros d H; simpl; [done|].
  apply IH. destruct (addable row) eqn:A; [|done].
  rewrite lookup_insert_ne; [done|]. by apply addable_not_Errors.
Qed.

Lemma loaded_dict_Errors rows e m :
  loaded_dict date_format strptime max_str_digits rows e m !! "Errors"
  = Some (VErrors (report_after_rows date_format strptime max_str_digits rows e)).
Proof.
  unfold loaded_dict. rewrite lookup_union_r.
  - apply lookup_insert_eq.
  - rewrite lookup_fmap, dict_of_rows_Errors; done.
Qed.

Lemma loaded_dict_size rows e m : size (loaded_dict date_format strptime max_str_digits rows e m) ≠ 0%nat.
Proof.
  intros H. apply map_size_empty_iff in H.
  pose proof (loaded_dict_Errors rows e m) as L.
  rewrite H, lookup_empty in L. discriminate L.
Qed.

(** [load_from_file] returns, and this is the world it leaves. *)
Lemma load_from_file_run rows e w :
  self w !! "Errors" = Some (VErrors e) ->
  load_from_file date_format strptime max_str_digits rows w
  = Returns tt (mkWorld (loaded_dict date_format strptime max_str_digits rows e (self w))
                  (logged w ++ [loaded_line date_format strptime max_str_digits rows e (self w)])).
Proof.
  intros H. unfold load_from_file.
  unfold bind at 1. rewrite (comprehension_run rows ∅ e w H).
  unfold bind at 1, self_update at 1.
  unfold bind at 1, len_self at 1.
  cbn [self logged with_Errors].
  fold (loaded_dict date_format strptime max_str_digits rows e (self w)).
  assert ((Z.of_nat (size (loaded_dict date_format strptime max_str_digits rows e (self w))) =? 0) = false) as ->.
  { apply Z.eqb_neq. pose proof (loaded_dict_size rows e (self w)). lia. }
  cbn [negb]. unfold bind, self_Errors. cbn [self].
  rewrite loaded_dict_Errors. unfold loaded_line, logging. cbn [self logged].
  by destruct (Errors_found _).
Qed.

Lemma is_Some_bool_decide {A} (o : option A) :
  bool_decide (is_Some o) = match o with Some _ => true | None => false end.
Proof.
  destruct o; [apply bool_decide_eq_true_2; eauto|].
  apply bool_decide_eq_false_2. by intros [x ?].
Qed.

Lemma months_body_invalid row :
  months_body max_str_digits row = None <-> months_invalid max_str_digits row = true.
Proof.
  unfold months_body, months_invalid, months_parsed.
  destruct (String.eqb (Months_in_Report row) EmptyString); cbn [negb].
  - split; intros H; vm_compute in H; discriminate H.
  - destruct (Py.int max_str_digits (Months_in_Report row)) as [n|]; simpl; [|done].
    destruct (bool_decide (n ∈ [0; 3; 6; 9; 12])); simpl; split; congruence.
Qed.

Lemma after_months_invalid row e :
  after_months max_str_digits row e
  = if months_invalid max_str_digits row
    then add_Faulty_months_in_report (ISIN row) (set_Errors_found e) else e.
Proof.
  unfold after_months. pose proof (months_body_invalid row) as [A B].
  destruct (months_body max_str_digits row), (months_invalid max_str_digits row); try done.
  - discriminate (B eq_refl).
  - discriminate (A eq_refl).
Qed.

Lemma after_name_months row e :
  Faulty_months_in_report (after_name row e) = Faulty_months_in_report e.
Proof. unfold after_name. by destruct (String.eqb _ _). Qed.

Lemma after_name_expiry row e :
  Faulty_report_expiry_dates (after_name row e) = Faulty_report_expiry_dates e.
Proof. unfold after_name. by destruct (String.eqb _ _). Qed.

Lemma after_months_expiry row e :
  Faulty_report_expiry_dates (after_months max_str_digits row e) = Faulty_report_expiry_dates e.
Proof. unfold after_months. by destruct (months_body _ _). Qed.

Lemma after_expiry_months row e :
  Faulty_months_in_report (after_expiry date_format strptime row e)
  = Faulty_months_in_report e.
Proof. unfold after_expiry. by destruct (expiry_body _ _ _). Qed.

Lemma after_expiry_found row e :
  Errors_found e = true ->
  Errors_found (after_expiry date_format strptime row e) = true.
Proof. unfold after_expiry. by destruct (expiry_body _ _ _). Qed.

Lemma addable_true row :
  ISIN row ≠ EmptyString -> String.length (ISIN row) = 12%nat ->
  addable row = true
  /\ forall e, report_after date_format strptime max_str_digits row e
              = after_expiry date_format strptime row
                  (after_months max_str_digits row (after_name row e)).
Proof.
  intros E L. unfold addable, report_after.
  apply String.eqb_neq in E. rewrite E, L. by split.
Qed.

Lemma expiry_body_empty row :
  Report_Expiry_Date row = EmptyString ->
  expiry_body date_format strptime row = Some tt.
Proof. intros E. unfold expiry_body. by rewrite E. Qed.

Lemma expiry_body_fails row :
  Report_Expiry_Date row ≠ EmptyString ->
  strptime (Report_Expiry_Date row) date_format = None ->
  expiry_body date_format strptime row = None.
Proof.
  intros E P. unfold expiry_body. apply String.eqb_neq in E. by rewrite E, P.
Qed.

Lemma report_after_found row e :
  Errors_found (report_after date_format strptime max_str_digits row e)
  = Errors_found e || triggers date_format strptime max_str_digits row.
Proof.
  unfold report_after, triggers, after_expiry, after_months, after_name.
  destruct (String.eqb (ISIN row) EmptyString); simpl;
    [by rewrite orb_true_r|].
  destruct (Nat.eqb (String.length (ISIN row)) 12); simpl;
    [|by rewrite orb_true_r].
  destruct (String.eqb (Name row) EmptyString),
    (months_body max_str_digits row) as [[]|],
    (expiry_body date_format strptime row) as [[]|];
    simpl; by rewrite ?orb_true_r, ?orb_false_r.
Qed.

Lemma report_after_rows_found rows : forall e,
  Errors_found (report_after_rows date_format strptime max_str_digits rows e)
  = Errors_found e || existsb (triggers date_format strptime max_str_digits) rows.
Proof.
  induction rows as [|row rows IH]; intros e; simpl.
  - by rewrite orb_false_r.
  - unfold report_after_rows in *. simpl.
    by rewrite IH, report_after_found, orb_assoc.
Qed.

Lemma Registry__init__run l :
  Registry__init__ (mkWorld ∅ l)
  = Returns tt
      (mkWorld {["Errors" := VErrors RegistryErrorDict__init__]}
         (l ++ [mkLog INFO "Registry: Loading basic data from CSV." []])).
Proof. reflexivity. Qed.

Lemma stocks_of_shape e (d : gmap string StockData) :
  d !! "Errors" = None ->
  stocks (<["Errors" := VErrors e]> (VStock <$> d)) = d.
Proof.
  intros H. apply map_eq. intros k. unfold stocks. rewrite lookup_omap.
  destruct (decide (k = "Errors")) as [->|N].
  - by rewrite lookup_insert_eq, H.
  - rewrite lookup_insert_ne by done. rewrite lookup_fmap.
    by destruct (d !! k).
Qed.

Lemma shape_Errors m :
  registry_shape m -> exists e, m !! "Errors" = Some (VErrors e).
Proof. intros (e & d & _ & ->). exists e. apply lookup_insert_eq. Qed.

Lemma shape_size m : registry_shape m -> size m = S (size (stocks m)).
Proof.
  intros (e & d & H & ->). rewrite (stocks_of_shape e d H).
  rewrite map_size_insert_None by (by rewrite lookup_fmap, H).
  by rewrite map_size_fmap.
Qed.

Lemma shape_others m k v :
  registry_shape m -> m !! k = Some v -> k ≠ "Errors" -> exists d, v = VStock d.
Proof.
  intros (e & d & _ & ->) L N. rewrite lookup_insert_ne in L by done.
  rewrite lookup_fmap in L. destruct (d !! k) as [x|]; [|done].
  exists x. by inversion L.
Qed.

Lemma shape_with_Errors m e' :
  registry_shape m -> registry_shape (<["Errors" := VErrors e']> m).
Proof.
  intros (e & d & H & ->). exists e', d. split; [done|].
  by rewrite insert_insert_eq.
Qed.

Lemma shape_loaded rows e m :
  registry_shape m -> registry_shape (loaded_dict date_format strptime max_str_digits rows e m).
Proof.
  intros (e0 & d & H & ->). unfold loaded_dict.
  pose proof (dict_of_rows_Errors rows ∅ (lookup_empty _)) as D.
  exists (report_after_rows date_format strptime max_str_digits rows e), (dict_of_rows rows ∅ ∪ d).
  split.
  - apply lookup_union_None. by split.
  - rewrite insert_insert_eq, map_fmap_union.
    rewrite insert_union_r by (by rewrite lookup_fmap, D). done.
Qed.

Lemma reachable_shape w :
  reachable date_format strptime max_str_digits w -> registry_shape (self w).
Proof.
  induction 1 as [l w I|w row b w' R IH C|w rows w' R IH L].
  - rewrite Registry__init__run in I. inversion I; subst. cbn [self].
    exists RegistryErrorDict__init__, ∅. split; [apply lookup_empty|].
    by rewrite fmap_empty, insert_empty.
  - destruct (shape_Errors _ IH) as [e He].
    rewrite (_registry_row_is_addable_run row e w He) in C.
    inversion C; subst. by apply shape_with_Errors.
  - destruct (shape_Errors _ IH) as [e He].
    rewrite (load_from_file_run rows e w He) in L.
    inversion L; subst. by apply shape_loaded.
Qed.

Lemma loaded_dict_new rows e e0 :
  loaded_dict date_format strptime max_str_digits rows e {["Errors" := VErrors e0]}
  = <["Errors" := VErrors (report_after_rows date_format strptime max_str_digits rows e)]>
      (VStock <$> dict_of_rows rows ∅).
Proof.
  unfold loaded_dict.
  pose proof (dict_of_rows_Errors rows ∅ (lookup_empty _)) as D.
  rewrite insert_singleton_eq, <- insert_empty.
  rewrite <- insert_union_r by (by rewrite lookup_fmap, D).
  by rewrite (right_id_L ∅ (∪)).
Qed.

Lemma loaded_dict_new_size rows e e0 :
  size (loaded_dict date_format strptime max_str_digits rows e {["Errors" := VErrors e0]})
  = S (size (dict_of_rows rows ∅)).
Proof.
  rewrite loaded_dict_new.
  pose proof (dict_of_rows_Errors rows ∅ (lookup_empty _)) as D.
  rewrite map_size_insert_None by (by rewrite lookup_fmap, D).
  by rewrite map_size_fmap.
Qed.

Lemma loaded_dict_new_stocks rows e e0 :
  stocks (loaded_dict date_format strptime max_str_digits rows e {["Errors" := VErrors e0]})
  = dict_of_rows rows ∅.
Proof.
  rewrite loaded_dict_new. apply stocks_of_shape.
  apply dict_of_rows_Errors, lookup_empty.
Qed.

Lemma rejected_not_addable row : rejected row = true -> addable row = false.
Proof.
  unfold rejected, addable.
  destruct (String.eqb _ _), (Nat.eqb _ _); simpl; congruence.
Qed.

Lemma rejected_triggers row :
  rejected row = true -> triggers date_format strptime max_str_digits row = true.
Proof.
  unfold rejected, triggers. intros ->. done.
Qed.

Lemma dict_of_rows_rejected rows : forall d,
  forallb rejected rows = true -> dict_of_rows rows d = d.
Proof.
  induction rows as [|row rows IH]; intros d H; [done|].
  simpl in H. apply andb_true_iff in H as [R H].
  unfold dict_of_rows in *. simpl.
  rewrite (rejected_not_addable row R). by apply IH.
Qed.

Lemma existsb_triggers_rejected rows :
  rows ≠ [] -> forallb rejected rows = true ->
  existsb (triggers date_format strptime max_str_digits) rows = true.
Proof.
  destruct rows as [|row rows]; [done|]. intros _ H. simpl in *.
  apply andb_true_iff in H as [R _]. by rewrite (rejected_triggers row R).
Qed.

Lemma fields_valid_addable row : fields_valid date_format strptime row = true -> addable row = true.
Proof.
  unfold fields_valid, addable. intros H.
  apply andb_true_iff in H as [H _]. apply andb_true_iff in H as [H _].
  apply andb_true_iff in H as [H _].
  destruct (String.eqb (ISIN row) EmptyString) eqn:E; [|by rewrite H].
  apply String.eqb_eq in E. rewrite E in H. discriminate H.
Qed.

Lemma fields_valid_report row e :
  fields_valid date_format strptime row = true ->
  report_after date_format strptime max_str_digits row e = e.
Proof.
  intros H. pose proof (fields_valid_addable row H) as A.
  unfold fields_valid in H. unfold addable in A. unfold report_after.
  apply andb_true_iff in H as [H X]. apply andb_true_iff in H as [H Mo].
  apply andb_true_iff in H as [L Na]. apply andb_true_iff in A as [A _].
  apply negb_true_iff in A. rewrite A, L. cbn [negb].
  unfold after_name. apply negb_true_iff in Na. rewrite Na.
  assert (months_body max_str_digits row = Some tt) as Mb.
  { apply bool_decide_eq_true_1 in Mo. unfold months_body.
    repeat (apply elem_of_cons in Mo as [->|Mo]; [done|]).
    by apply elem_of_nil in Mo. }
  unfold after_months. rewrite Mb.
  unfold after_expiry, expiry_body.
  destruct (String.eqb (Report_Expiry_Date row) EmptyString); [done|].
  simpl in X. apply bool_decide_eq_true_1 in X as [dt ->]. done.
Qed.

Lemma report_after_rows_valid rows : forall e,
  forallb (fields_valid date_format strptime) rows = true ->
  report_after_rows date_format strptime max_str_digits rows e = e.
Proof.
  induction rows as [|row rows IH]; intros e H; [done|].
  simpl in H. apply andb_true_iff in H as [V H].
  unfold report_after_rows in *. simpl.
  rewrite (fields_valid_report row e V). by apply IH.
Qed.

Lemma dict_of_rows_size rows : forall d,
  forallb (fields_valid date_format strptime) rows = true ->
  NoDup (ISIN <$> rows) ->
  (forall row, row ∈ rows -> d !! ISIN row = None) ->
  size (dict_of_rows rows d) = (size d + length rows)%nat.
Proof.
  induction rows as [|row rows IH]; intros d V N F.
  - simpl. lia.
  - simpl in V. apply andb_true_iff in V as [V1 V].
    rewrite fmap_cons in N. apply NoDup_cons in N as [N1 N].
    unfold dict_of_rows in *. simpl.
    rewrite (fields_valid_addable row V1).
    rewrite IH; [|done|done|].
    + rewrite map_size_insert_None by (apply F; left). lia.
    + intros r Hr. rewrite lookup_insert_ne.
      * apply F. by right.
      * intros E. apply N1. rewrite E. by apply list_elem_of_fmap_2.
Qed.

(** The branch of [load_from_file] that logs 'No ISIN loaded.' is never
    taken by a registry that went through [__init__]. *)
Lemma No_ISIN_loaded_never_logged rows w w' :
  reachable date_format strptime max_str_digits w ->
  load_from_file date_format strptime max_str_digits rows w = Returns tt w' ->
  exists line : LogRecord,
    logged w' = (logged w ++ [line])%list
    /\ line ≠ mkLog ERROR "Registry: No ISIN loaded." [].
Proof.
  intros R L. destruct (shape_Errors _ (reachable_shape w R)) as [e He].
  rewrite (load_from_file_run rows e w He) in L. inversion L; subst.
  eexists. split; [reflexivity|]. unfold loaded_line.
  destruct (negb _); discriminate.
Qed.

Lemma expiry_body_invalid row :
  bool_decide (is_Some (expiry_body date_format strptime row))
  = negb (expiry_invalid date_format strptime row).
Proof.
  unfold expiry_body, expiry_invalid. rewrite !is_Some_bool_decide.
  destruct (String.eqb (Report_Expiry_Date row) EmptyString); [done|].
  by destruct (strptime (Report_Expiry_Date row) date_format).
Qed.

Lemma months_body_is_Some row :
  bool_decide (is_Some (months_body max_str_digits row)) = negb (months_invalid max_str_digits row).
Proof.
  rewrite is_Some_bool_decide. pose proof (months_body_invalid row) as [A B].
  destruct (months_body max_str_digits row), (months_invalid max_str_digits row); try done.
  - discriminate (B eq_refl).
  - discriminate (A eq_refl).
Qed.

(** The categories as the code reaches them and as [in_a_category] sorts
    the rows are the same. *)
Lemma triggers_in_a_category row :
  triggers date_format strptime max_str_digits row
  = in_a_category date_format strptime max_str_digits row.
Proof.
  unfold triggers, in_a_category, missing_ISIN, faulty_ISIN, missing_name,
    faulty_months, faulty_expiry, addable.
  rewrite months_body_is_Some, expiry_body_invalid, !negb_involutive.
  destruct (String.eqb (ISIN row) EmptyString); [done|].
  destruct (Nat.eqb (String.length (ISIN row)) 12); [|done].
  done.
Qed.

Lemma existsb_triggers_in_a_category rows :
  existsb (triggers date_format strptime max_str_digits) rows
  = existsb (in_a_category date_format strptime max_str_digits) rows.
Proof.
  induction rows as [|row rows IH]; [done|]. cbn [existsb].
  by rewrite IH, triggers_in_a_category.
Qed.

Lemma int_isspace_not_digit c : Py.int_isspace c = true -> Py.isdigit c = false.
Proof.
  destruct c as [[] [] [] [] [] [] [] []]; intros H; vm_compute in H;
    first [discriminate H | reflexivity].
Qed.

Lemma count_digits_int_lstrip s :
  Py.count_digits (Py.int_lstrip s) = Py.count_digits s.
Proof.
  induction s as [|c r IH]; [done|]. cbn [Py.int_lstrip].
  destruct (Py.int_isspace c) eqn:W; [|done].
  cbn [Py.count_digits]. by rewrite (int_isspace_not_digit c W).
Qed.

Lemma count_digits_int_rstrip s :
  Py.count_digits (Py.int_rstrip s) = Py.count_digits s.
Proof.
  induction s as [|c r IH]; [done|]. cbn [Py.int_rstrip].
  destruct (Py.int_rstrip r) as [|a t] eqn:R.
  - cbn [Py.count_digits] in *. rewrite <- IH.
    destruct (Py.int_isspace c) eqn:W; cbn [Py.count_digits].
    + by rewrite (int_isspace_not_digit c W).
    + by destruct (Py.isdigit c).
  - change (Py.count_digits (String c (String a t)))
      with (if Py.isdigit c then S (Py.count_digits (String a t))
            else Py.count_digits (String a t)).
    rewrite IH. reflexivity.
Qed.

(** [int] refuses a text with more digits than the limit, whatever else
    the text is. *)
Lemma int_over_limit s :
  Py.over_limit max_str_digits (Py.count_digits s) = true ->
  Py.int max_str_digits s = None.
Proof.
  intros H. unfold Py.int.
  rewrite count_digits_int_rstrip, count_digits_int_lstrip, H.
  by destruct (match Py.int_rstrip (Py.int_lstrip s) with
               | EmptyString => None
               | String c r => _
               end).
Qed.

Lemma months_invalid_over_limit row :
  (640 < Py.count_digits (Months_in_Report row))%nat ->
  (0 < max_str_digits)%nat ->
  (max_str_digits < Py.count_digits (Months_in_Report row))%nat ->
  months_invalid max_str_digits row = true.
Proof.
  intros T P L. unfold months_invalid, months_parsed.
  destruct (String.eqb (Months_in_Report row) EmptyString) eqn:E.
  { apply String.eqb_eq in E. rewrite E in T. cbn in T. lia. }
  rewrite int_over_limit; [done|]. unfold Py.over_limit.
  apply Nat.ltb_lt in T, P, L. by rewrite T, P, L.
Qed.

End Run.

(** ** The claims *)

Section Claims.

Variable date_format : string.
Variable strptime : string -> string -> option Py.datetime.
Variable max_str_digits : nat.

(** C1. What the code does with an EPS text that holds a comma: the text
    reaches [Decimal] with its commas, [Decimal] rejects it, and the EPS of
    the stock is [Decimal('0')]; the comma is never read as a decimal
    mark. *)
Theorem comma_EPS_becomes_zero (s : string) (row : Row) :
  Py.contains "," s = true ->
  _string_to_decimal s = Decimal_0
  /\ sd_EPS (_registry_row_from_csv (with_EPS s row)) = Decimal_0.
Proof.
  intros H. assert (_string_to_decimal s = Decimal_0) as Z.
  { unfold _string_to_decimal. by rewrite (Decimal_of_str_comma s H). }
  by split.
Qed.

(** C2. What the code does with a batch, not empty, in which every row is
    rejected for its ISIN, loaded into a new registry: no stock is added,
    the dictionary still holds the one key ['Errors'], so its length is 1
    and not 0, and the line logged is 'The following errors found:', not
    'No ISIN loaded.'. *)
Theorem all_rejected_load_logs_errors_found (rows : list Row) (w : World) :
  self w = {["Errors" := VErrors RegistryErrorDict__init__]} ->
  rows ≠ [] ->
  forallb rejected rows = true ->
  exists e,
    load_from_file date_format strptime max_str_digits rows w
    = Returns tt
        (mkWorld {["Errors" := VErrors e]}
           (logged w ++ [mkLog ERROR "Registry: The following errors found:" []]))
    /\ Errors_found e = true
    /\ stocks {["Errors" := VErrors e]} = ∅
    /\ size ({["Errors" := VErrors e]} : gmap string Value) = 1%nat.
Proof.
  intros W N R.
  exists (report_after_rows date_format strptime max_str_digits rows RegistryErrorDict__init__).
  assert (self w !! "Errors" = Some (VErrors RegistryErrorDict__init__)) as H
    by (rewrite W; apply lookup_singleton_eq).
  assert (Errors_found
            (report_after_rows date_format strptime max_str_digits rows RegistryErrorDict__init__)
          = true) as F.
  { rewrite report_after_rows_found.
    by rewrite (existsb_triggers_rejected date_format strptime max_str_digits rows N R). }
  split; [|split; [done|split]].
  - rewrite (load_from_file_run _ _ _ rows _ w H). unfold loaded_line.
    rewrite F, W, loaded_dict_new, (dict_of_rows_rejected rows ∅ R).
    by rewrite fmap_empty, insert_empty.
  - unfold stocks. by rewrite omap_singleton_None.
  - apply map_size_singleton.
Qed.

(** C3. What the code does with a batch of N rows with N different
    12-character ISINs and every other field valid, loaded into a new
    registry: N stocks are added, the report stays as [__init__] made it
    with ['Errors found'] [False], the dictionary has N + 1 keys, and the
    number in the line logged is that N + 1, the length of the dictionary
    with its ['Errors'] key, not N. *)
Theorem all_valid_load_counts_Errors_key (rows : list Row) (w : World) :
  self w = {["Errors" := VErrors RegistryErrorDict__init__]} ->
  forallb (fields_valid date_format strptime) rows = true ->
  NoDup (ISIN <$> rows) ->
  exists m,
    load_from_file date_format strptime max_str_digits rows w
    = Returns tt
        (mkWorld m
           (logged w
            ++ [mkLog INFO "Registry: %d new ISIN loaded. No errors found."
                  [Z.of_nat (length rows) + 1]]))
    /\ m !! "Errors" = Some (VErrors RegistryErrorDict__init__)
    /\ size (stocks m) = length rows
    /\ size m = S (length rows).
Proof.
  intros W V N.
  assert (self w !! "Errors" = Some (VErrors RegistryErrorDict__init__)) as H
    by (rewrite W; apply lookup_singleton_eq).
  assert (size (dict_of_rows rows ∅) = length rows) as Sz.
  { rewrite (dict_of_rows_size date_format strptime rows ∅ V N).
    - by rewrite map_size_empty.
    - intros row _. apply lookup_empty. }
  exists (loaded_dict date_format strptime max_str_digits rows RegistryErrorDict__init__ (self w)).
  split; [|split; [|split]].
  - rewrite (load_from_file_run _ _ _ rows _ w H). unfold loaded_line.
    rewrite (report_after_rows_valid _ _ _ rows _ V).
    cbn [Errors_found negb RegistryErrorDict__init__].
    rewrite W, loaded_dict_new_size, Sz.
    by replace (Z.of_nat (S (length rows))) with (Z.of_nat (length rows) + 1)
      by lia.
  - rewrite loaded_dict_Errors. by rewrite (report_after_rows_valid _ _ _ rows _ V).
  - by rewrite W, loaded_dict_new_stocks.
  - by rewrite W, loaded_dict_new_size, Sz.
Qed.

(** C4. A row whose ISIN is empty is not addable; checking it sets
    ['Errors found'], adds exactly 1 to ['Number of missing ISINs'] and
    leaves the four sets, the other keys of the registry and the log as
    they were, whatever the other fields of the row hold: no later rule is
    evaluated. *)
Theorem missing_ISIN_rejected (row : Row) (e : RegistryErrorDict) (w : World) :
  self w !! "Errors" = Some (VErrors e) ->
  ISIN row = EmptyString ->
  _registry_row_is_addable date_format strptime max_str_digits row w
  = Returns false
      (with_Errors
         {| Errors_found := true;
            Number_of_missing_ISINs := Number_of_missing_ISINs e + 1;
            Faulty_ISINs := Faulty_ISINs e;
            Missing_names := Missing_names e;
            Faulty_months_in_report := Faulty_months_in_report e;
            Faulty_report_expiry_dates := Faulty_report_expiry_dates e |} w).
Proof.
  intros H E. rewrite (_registry_row_is_addable_run _ _ _ row e w H).
  unfold addable, report_after. rewrite E. reflexivity.
Qed.

(** C5. A row whose ISIN is not empty and not 12 characters long is not
    addable; checking it sets ['Errors found'], adds the ISIN to
    ['Faulty ISINs'] and leaves ['Number of missing ISINs'], the other
    three sets, the other keys of the registry and the log as they were: no
    later rule is evaluated. *)
Theorem faulty_ISIN_rejected (row : Row) (e : RegistryErrorDict) (w : World) :
  self w !! "Errors" = Some (VErrors e) ->
  ISIN row ≠ EmptyString ->
  String.length (ISIN row) ≠ 12%nat ->
  _registry_row_is_addable date_format strptime max_str_digits row w
  = Returns false
      (with_Errors
         {| Errors_found := true;
            Number_of_missing_ISINs := Number_of_missing_ISINs e;
            Faulty_ISINs := {[ISIN row]} ∪ Faulty_ISINs e;
            Missing_names := Missing_names e;
            Faulty_months_in_report := Faulty_months_in_report e;
            Faulty_report_expiry_dates := Faulty_report_expiry_dates e |} w).
Proof.
  intros H E L. rewrite (_registry_row_is_addable_run _ _ _ row e w H).
  unfold addable, report_after.
  apply String.eqb_neq in E. rewrite E.
  apply Nat.eqb_neq in L. rewrite L. reflexivity.
Qed.

(** C6. For a row with a 12-character ISIN the months check reads the months
    text as an integer, the empty text as 0.  When [int] refuses the text
    or the integer is none of 0, 3, 6, 9 and 12, the check sets
    ['Errors found'] and adds the ISIN to ['Faulty months in report']; in
    the other case it changes nothing.  Either way the row is addable.
    Which texts these are: the empty text is never handed to [int] and is
    valid; a text [int] reads as [n] is valid exactly when [n] is one of the
    five numbers; a text [int] refuses is invalid, among them every text
    with more digits than the limit of [int] allows.  The texts of the
    tests and some that [int] reads or refuses are listed. *)
Theorem months_check_soft (row : Row) (e : RegistryErrorDict) (w : World) :
  self w !! "Errors" = Some (VErrors e) ->
  ISIN row ≠ EmptyString ->
  String.length (ISIN row) = 12%nat ->
  months_check max_str_digits row w
  = Returns tt
      (if months_invalid max_str_digits row
       then with_Errors
              (add_Faulty_months_in_report (ISIN row) (set_Errors_found e)) w
       else w)
  /\ (exists e',
        _registry_row_is_addable date_format strptime max_str_digits row w
        = Returns true (with_Errors e' w)
        /\ Faulty_months_in_report e'
           = (if months_invalid max_str_digits row
              then {[ISIN row]} ∪ Faulty_months_in_report e
              else Faulty_months_in_report e)
        /\ (months_invalid max_str_digits row = true -> Errors_found e' = true))
  /\ (Months_in_Report row = EmptyString ->
      months_invalid max_str_digits row = false)
  /\ (forall n,
        Months_in_Report row ≠ EmptyString ->
        Py.int max_str_digits (Months_in_Report row) = Some n ->
        months_invalid max_str_digits row
        = negb (bool_decide (n ∈ [0; 3; 6; 9; 12])))
  /\ (Months_in_Report row ≠ EmptyString ->
      Py.int max_str_digits (Months_in_Report row) = None ->
      months_invalid max_str_digits row = true)
  /\ ((640 < Py.count_digits (Months_in_Report row))%nat ->
      (0 < max_str_digits)%nat ->
      (max_str_digits < Py.count_digits (Months_in_Report row))%nat ->
      months_invalid max_str_digits row = true)
  /\ (Months_in_Report row
        ∈ ["0"; "3"; "6"; "9"; "12"; " 3 "; "+6"; "09"; "1_2"; "-0";
           String "009" (String "012" (String "013" "3"));
           String "160" (String "133" "12")] ->
      months_invalid max_str_digits row = false)
  /\ (Months_in_Report row
        ∈ ["4"; "X"; "1.5"; "3.0"; "-3"; "15"; " "; "1 2"; "+ 3"; "1__2";
           "_3"; "3_"; "0x3"; String "028" "3"; String "3" (String "031" "");
           String "3" (String "000" "")] ->
      months_invalid max_str_digits row = true).
Proof.
  intros H E L. split; [|split; [|split; [|split; [|split; [|split; [|split]]]]]].
  - rewrite (months_check_run _ row e w H), after_months_invalid.
    destruct (months_invalid max_str_digits row); [done|].
    by rewrite with_Errors_same.
  - destruct (addable_true date_format strptime max_str_digits row E L) as [A R].
    exists (report_after date_format strptime max_str_digits row e).
    rewrite (_registry_row_is_addable_run _ _ _ row e w H), A, R.
    split; [done|].
    rewrite after_expiry_months, after_months_invalid.
    destruct (months_invalid max_str_digits row).
    + split; [by simpl; rewrite after_name_months|].
      intros _. by apply after_expiry_found.
    + split; [by rewrite after_name_months|]. intros D; discriminate D.
  - intros M. unfold months_invalid, months_parsed. by rewrite M.
  - intros n M P. unfold months_invalid, months_parsed.
    apply String.eqb_neq in M. by rewrite M, P.
  - intros M P. unfold months_invalid, months_parsed.
    apply String.eqb_neq in M. by rewrite M, P.
  - apply months_invalid_over_limit.
  - intros M. unfold months_invalid, months_parsed.
    repeat (apply elem_of_cons in M as [->|M]; [vm_compute; reflexivity|]).
    by apply elem_of_nil in M.
  - intros M. unfold months_invalid, months_parsed.
    repeat (apply elem_of_cons in M as [->|M]; [vm_compute; reflexivity|]).
    by apply elem_of_nil in M.
Qed.

(** C7. For a row with a 12-character ISIN: when the expiry-date text is
    empty the date check calls no parser and changes nothing; when it is
    not empty and [strptime] rejects it for the configured format, the check
    sets ['Errors found'] and adds the ISIN to
    ['Faulty report expiry dates'].  In both cases the row is addable. *)
Theorem expiry_check_soft (row : Row) (e : RegistryErrorDict) (w : World) :
  self w !! "Errors" = Some (VErrors e) ->
  ISIN row ≠ EmptyString ->
  String.length (ISIN row) = 12%nat ->
  (Report_Expiry_Date row = EmptyString ->
   expiry_check date_format strptime row w = Returns tt w)
  /\ (Report_Expiry_Date row ≠ EmptyString ->
      strptime (Report_Expiry_Date row) date_format = None ->
      expiry_check date_format strptime row w
      = Returns tt
          (with_Errors
             (add_Faulty_report_expiry_dates (ISIN row) (set_Errors_found e)) w))
  /\ exists e',
      _registry_row_is_addable date_format strptime max_str_digits row w
      = Returns true (with_Errors e' w)
      /\ (Report_Expiry_Date row = EmptyString ->
          Faulty_report_expiry_dates e' = Faulty_report_expiry_dates e)
      /\ (Report_Expiry_Date row ≠ EmptyString ->
          strptime (Report_Expiry_Date row) date_format = None ->
          Errors_found e' = true
          /\ Faulty_report_expiry_dates e'
             = {[ISIN row]} ∪ Faulty_report_expiry_dates e).
Proof.
  intros H E L. split; [|split].
  - intros D. rewrite (expiry_check_run _ _ row e w H). unfold after_expiry.
    rewrite (expiry_body_empty _ _ row D). by rewrite with_Errors_same.
  - intros D P. rewrite (expiry_check_run _ _ row e w H). unfold after_expiry.
    by rewrite (expiry_body_fails _ _ row D P).
  - destruct (addable_true date_format strptime max_str_digits row E L) as [A R].
    exists (report_after date_format strptime max_str_digits row e).
    rewrite (_registry_row_is_addable_run _ _ _ row e w H), A, R.
    split; [done|]. unfold after_expiry. split.
    + intros D. rewrite (expiry_body_empty _ _ row D).
      by rewrite after_months_expiry, after_name_expiry.
    + intros D P. rewrite (expiry_body_fails _ _ row D P). simpl.
      by rewrite after_months_expiry, after_name_expiry.
Qed.

(** C8. ['Errors found'] only ever goes from [False] to [True]:
    [__init__] sets it to [False]; after a row is checked it is what it was
    or-ed with whether the row falls in one of the five categories (no ISIN,
    faulty ISIN, and for a row that has passed these: no name, an invalid
    months code, an invalid expiry date); after a load it is what it was
    or-ed with whether some row of the batch does.  So a flag that is
    [True] stays [True] through both, and a flag that is [False] becomes
    [True] exactly at the first such row. *)
Theorem Errors_found_monotone
    (row : Row) (rows : list Row) (e : RegistryErrorDict) (w : World) :
  self w !! "Errors" = Some (VErrors e) ->
  (forall l, exists w0,
      Registry__init__ (mkWorld ∅ l) = Returns tt w0
      /\ exists e0, self w0 !! "Errors" = Some (VErrors e0)
                    /\ Errors_found e0 = false)
  /\ (exists b e',
        _registry_row_is_addable date_format strptime max_str_digits row w
        = Returns b (with_Errors e' w)
        /\ Errors_found e'
           = Errors_found e
             || in_a_category date_format strptime max_str_digits row
        /\ (Errors_found e = true -> Errors_found e' = true))
  /\ (exists w' e',
        load_from_file date_format strptime max_str_digits rows w
        = Returns tt w'
        /\ self w' !! "Errors" = Some (VErrors e')
        /\ Errors_found e'
           = Errors_found e
             || existsb (in_a_category date_format strptime max_str_digits) rows
        /\ (Errors_found e = true -> Errors_found e' = true)).
Proof.
  intros H. split; [|split].
  - intros l. eexists. split; [apply Registry__init__run|].
    exists RegistryErrorDict__init__. split; [|done].
    cbn [self]. apply lookup_singleton_eq.
  - exists (addable row),
      (report_after date_format strptime max_str_digits row e).
    split; [by apply _registry_row_is_addable_run|].
    rewrite report_after_found, triggers_in_a_category. split; [done|].
    by intros ->.
  - eexists. exists (report_after_rows date_format strptime max_str_digits rows e).
    split; [by apply load_from_file_run|]. cbn [self].
    split; [apply loaded_dict_Errors|].
    rewrite report_after_rows_found, existsb_triggers_in_a_category.
    split; [done|]. by intros ->.
Qed.

(** C10. In every world a [Registry] object goes through, from [__init__]
    on and after any number of row checks and loads, the dictionary binds
    ['Errors'] to an error report and every other key to a stock; so its
    length is the number of stocks plus one and never 0.  From such a world
    a row check and a load return without raising (and lead to such a world
    again, by [reach_check] and [reach_load]). *)
Theorem Errors_key_always_bound (w : World) :
  reachable date_format strptime max_str_digits w ->
  (exists e, self w !! "Errors" = Some (VErrors e))
  /\ (forall k v, self w !! k = Some v -> k ≠ "Errors" -> exists d, v = VStock d)
  /\ size (self w) = S (size (stocks (self w)))
  /\ size (self w) ≠ 0%nat
  /\ (forall row, exists b w',
        _registry_row_is_addable date_format strptime max_str_digits row w = Returns b w'
        /\ reachable date_format strptime max_str_digits w')
  /\ (forall rows, exists w',
        load_from_file date_format strptime max_str_digits rows w = Returns tt w'
        /\ reachable date_format strptime max_str_digits w').
Proof.
  intros R. pose proof (reachable_shape _ _ _ w R) as S.
  destruct (shape_Errors _ S) as [e He].
  split; [by exists e|].
  split; [intros k v; by apply shape_others|].
  split; [by apply shape_size|].
  split; [rewrite (shape_size _ S); lia|].
  split.
  - intros row. do 2 eexists. split.
    + by apply _registry_row_is_addable_run.
    + eapply reach_check; [exact R|]. by apply _registry_row_is_addable_run.
  - intros rows. eexists. split.
    + by apply load_from_file_run.
    + eapply reach_load; [exact R|]. by apply load_from_file_run.
Qed.

(** C9. The EPS conversion always yields a decimal and never raises: the
    one [Decimal] reads from the text when it accepts it, [Decimal('0')]
    when it refuses it.  What is read is exact: digits, with or without a
    point and with or without a sign, give the digits as they stand as
    coefficient and the number of places after the point as exponent, so
    ['12.34'] is 1234 with exponent -2 and ['0.10'] keeps its two places;
    an exponent, underscores, white space around the text, infinities and
    NaNs are read as well.  What is refused, and gives 0: a text that is no
    number, and a number that the exact conversion would have to round or
    clamp.  The EPS text has no part in whether a row is addable or in what
    the check writes to the report, and building the stock of a checked row
    leaves the world as the check left it. *)
Theorem EPS_conversion_total
    (s : string) (sg : option bool) (i f : string)
    (row : Row) (d : gmap string StockData) (w : World) :
  _string_to_decimal s
  = match Py.Decimal_of_str s with Some x => x | None => Decimal_0 end
  /\ sd_EPS (_registry_row_from_csv (with_EPS s row)) = _string_to_decimal s
  /\ (Py.isdecimal i = true -> Py.isdecimal f = true ->
      i +:+ f ≠ EmptyString ->
      Z.of_nat (String.length (i +:+ f)) <= Py.MAX_PREC ->
      _string_to_decimal (signed sg (i +:+ String "." f))
      = Py.Finite (is_negative sg) (Z.to_N (Py.digits_value 0 (i +:+ f)))
          (- Z.of_nat (String.length f)))
  /\ (Py.isdecimal i = true -> i ≠ EmptyString ->
      Z.of_nat (String.length i) <= Py.MAX_PREC ->
      _string_to_decimal (signed sg i)
      = Py.Finite (is_negative sg) (Z.to_N (Py.digits_value 0 i)) 0)
  /\ Forall (fun '(t, x) => Py.Decimal_of_str t = Some x
                            /\ _string_to_decimal t = x)
       [("12.34", Py.Finite false 1234 (-2));
        ("0.10", Py.Finite false 10 (-2));
        ("-7", Py.Finite true 7 0);
        ("+007.50", Py.Finite false 750 (-2));
        (".5", Py.Finite false 5 (-1));
        ("5.", Py.Finite false 5 0);
        ("1E3", Py.Finite false 1 3);
        ("-.5e-2", Py.Finite true 5 (-3));
        (" 1_000.5 ", Py.Finite false 10005 (-1));
        (String "028" "1.5", Py.Finite false 15 (-1));
        ("1e999999999999999999", Py.Finite false 1 999999999999999999);
        ("123e999999999999999997", Py.Finite false 123 999999999999999997);
        ("0e999999999999999999", Py.Finite false 0 999999999999999999);
        ("1e-1999999999999999997", Py.Finite false 1 (-1999999999999999997));
        ("Infinity", Py.Infinity false);
        ("-inf", Py.Infinity true);
        ("NaN", Py.NaN false false 0);
        ("-sNaN012", Py.NaN true true 12)]
  /\ Forall (fun t => Py.Decimal_of_str t = None
                      /\ _string_to_decimal t = Py.Finite false 0 0)
       [EmptyString; " "; "twelve"; "1,5"; "12,34"; "1.234,5"; "--1"; "+";
        "1.2.3"; "1e"; "e1"; "."; "1 2"; "0x10"; "infinit";
        String "1" (String "000" "");
        "1e1000000000000000000"; "10e999999999999999999";
        "123e999999999999999998"; "0e1000000000000000000";
        "1e-1999999999999999998"; "0.0e-1999999999999999997"]
  /\ _registry_row_is_addable date_format strptime max_str_digits
       (with_EPS s row) w
     = _registry_row_is_addable date_format strptime max_str_digits row w
  /\ comprehension date_format strptime max_str_digits [with_EPS s row] d w
     = match _registry_row_is_addable date_format strptime max_str_digits row w
       with
       | Returns true w' =>
           Returns (<[ISIN row := _registry_row_from_csv (with_EPS s row)]> d) w'
       | Returns false w' => Returns d w'
       | Raises x => Raises x
       end.
Proof.
  split; [reflexivity|]. split; [reflexivity|]. split.
  { intros Hi Hf N B. unfold _string_to_decimal.
    by rewrite (Decimal_of_str_plain sg i f Hi Hf N B). }
  split.
  { intros Hi N B. unfold _string_to_decimal.
    by rewrite (Decimal_of_str_integer sg i Hi N B). }
  split; [repeat constructor; vm_compute; reflexivity|].
  split; [repeat constructor; vm_compute; reflexivity|].
  split; [reflexivity|].
  cbn [comprehension]. unfold bind.
  change (_registry_row_is_addable date_format strptime max_str_digits
            (with_EPS s row) w)
    with (_registry_row_is_addable date_format strptime max_str_digits row w).
  destruct (_registry_row_is_addable date_format strptime max_str_digits row w)
    as [[] w'|x]; reflexivity.
Qed.

End Claims.

(** ** The claims at the rows of the tests *)

Lemma comma_EPS_becomes_zero_witness :
  Py.contains "," "12,34" = true
  /\ (_string_to_decimal "12,34" = Decimal_0
      /\ sd_EPS (_registry_row_from_csv (with_EPS "12,34" acceptable_row))
         = Decimal_0)
  /\ Py.Decimal_of_str (Py.replace "," "." "12,34")
     = Some (Py.Finite false 1234 (-2)).
Proof.
  split; [reflexivity|]. split; [|reflexivity].
  apply (comma_EPS_becomes_zero "12,34" acceptable_row). reflexivity.
Defined.

Lemma all_rejected_load_logs_errors_found_witness :
  exists e,
    load_from_file test_date_format Py.strptime test_max_str_digits
      [row_without_ISIN; row_with_short_ISIN] Registry_new
    = Returns tt
        (mkWorld {["Errors" := VErrors e]}
           (logged Registry_new
            ++ [mkLog ERROR "Registry: The following errors found:" []]))
    /\ Errors_found e = true
    /\ stocks {["Errors" := VErrors e]} = ∅
    /\ size ({["Errors" := VErrors e]} : gmap string Value) = 1%nat.
Proof.
  apply (all_rejected_load_logs_errors_found test_date_format Py.strptime
           test_max_str_digits [row_without_ISIN; row_with_short_ISIN] Registry_new).
  - reflexivity.
  - discriminate.
  - reflexivity.
Defined.

Lemma all_valid_load_counts_Errors_key_witness :
  exists m,
    load_from_file test_date_format Py.strptime test_max_str_digits
      [acceptable_row; other_row] Registry_new
    = Returns tt
        (mkWorld m
           (logged Registry_new
            ++ [mkLog INFO "Registry: %d new ISIN loaded. No errors found." [3]]))
    /\ m !! "Errors" = Some (VErrors RegistryErrorDict__init__)
    /\ size (stocks m) = 2%nat
    /\ size m = 3%nat.
Proof.
  apply (all_valid_load_counts_Errors_key test_date_format Py.strptime
           test_max_str_digits [acceptable_row; other_row] Registry_new).
  - reflexivity.
  - vm_compute. reflexivity.
  - apply (bool_decide_unpack _). vm_compute. exact I.
Defined.

Lemma missing_ISIN_rejected_witness :
  _registry_row_is_addable test_date_format Py.strptime test_max_str_digits row_without_ISIN
    Registry_new
  = Returns false
      (with_Errors
         {| Errors_found := true;
            Number_of_missing_ISINs := 0 + 1;
            Faulty_ISINs := ∅;
            Missing_names := ∅;
            Faulty_months_in_report := ∅;
            Faulty_report_expiry_dates := ∅ |} Registry_new).
Proof.
  apply (missing_ISIN_rejected test_date_format Py.strptime test_max_str_digits row_without_ISIN
           RegistryErrorDict__init__ Registry_new); reflexivity.
Defined.

Lemma faulty_ISIN_rejected_witness :
  _registry_row_is_addable test_date_format Py.strptime test_max_str_digits row_with_short_ISIN
    Registry_new
  = Returns false
      (with_Errors
         {| Errors_found := true;
            Number_of_missing_ISINs := 0;
            Faulty_ISINs := {["12345678901"]} ∪ ∅;
            Missing_names := ∅;
            Faulty_months_in_report := ∅;
            Faulty_report_expiry_dates := ∅ |} Registry_new).
Proof.
  apply (faulty_ISIN_rejected test_date_format Py.strptime test_max_str_digits row_with_short_ISIN
           RegistryErrorDict__init__ Registry_new).
  - reflexivity.
  - discriminate.
  - vm_compute. lia.
Defined.

Lemma months_check_soft_witness :
  (months_check test_max_str_digits (row_with_months "4") Registry_new
   = Returns tt
       (with_Errors
          (add_Faulty_months_in_report "123456789012"
             (set_Errors_found RegistryErrorDict__init__)) Registry_new)
   /\ months_check test_max_str_digits (row_with_months "3") Registry_new
      = Returns tt Registry_new
   /\ months_check test_max_str_digits (row_with_months EmptyString)
        Registry_new
      = Returns tt Registry_new)
  /\ (months_invalid test_max_str_digits (row_with_months "12") = false
      /\ months_invalid test_max_str_digits (row_with_months " 3 ") = false
      /\ months_invalid test_max_str_digits
           (row_with_months (String "160" "12")) = false)
  /\ (months_invalid test_max_str_digits (row_with_months "X") = true
      /\ months_invalid test_max_str_digits
           (row_with_months (String "028" "3")) = true
      /\ months_invalid test_max_str_digits (row_with_months (zeros 4301))
         = true
      /\ months_invalid 0 (row_with_months (zeros 4301)) = false).
Proof.
  assert (forall m : string,
            self Registry_new !! "Errors" = Some (VErrors RegistryErrorDict__init__)
            /\ ISIN (row_with_months m) ≠ EmptyString
            /\ String.length (ISIN (row_with_months m)) = 12%nat) as Hyp
    by (intros m; split; [reflexivity|split; [discriminate|reflexivity]]).
  pose proof (fun (L : nat) (m : string) =>
                months_check_soft test_date_format Py.strptime L
                  (row_with_months m) RegistryErrorDict__init__ Registry_new
                  (proj1 (Hyp m)) (proj1 (proj2 (Hyp m)))
                  (proj2 (proj2 (Hyp m)))) as T.
  split; [|split].
  - split; [|split].
    + destruct (T test_max_str_digits "4") as (B & _). exact B.
    + destruct (T test_max_str_digits "3") as (B & _). exact B.
    + destruct (T test_max_str_digits EmptyString) as (B & _). exact B.
  - split; [|split].
    + destruct (T test_max_str_digits "12") as (_ & _ & _ & _ & _ & _ & A & _).
      apply A. apply (bool_decide_unpack _). vm_compute. exact I.
    + destruct (T test_max_str_digits " 3 ") as (_ & _ & _ & _ & _ & _ & A & _).
      apply A. apply (bool_decide_unpack _). vm_compute. exact I.
    + destruct (T test_max_str_digits (String "160" "12"))
        as (_ & _ & _ & N & _).
      apply (N 12); [discriminate|vm_compute; reflexivity].
  - split; [|split; [|split]].
    + destruct (T test_max_str_digits "X") as (_ & _ & _ & _ & _ & _ & _ & R).
      apply R. apply (bool_decide_unpack _). vm_compute. exact I.
    + destruct (T test_max_str_digits (String "028" "3"))
        as (_ & _ & _ & _ & N & _).
      apply N; [discriminate|vm_compute; reflexivity].
    + destruct (T test_max_str_digits (zeros 4301)) as (_ & _ & _ & _ & _ & O & _).
      apply O; apply Nat.ltb_lt; vm_compute; reflexivity.
    + destruct (T 0%nat (zeros 4301)) as (_ & _ & _ & N & _).
      apply (N 0); [discriminate|vm_compute; reflexivity].
Defined.

Lemma expiry_check_soft_witness :
  Py.strptime "20000.01.01" test_date_format = None
  /\ expiry_check test_date_format Py.strptime row_with_bad_date Registry_new
     = Returns tt
         (with_Errors
            (add_Faulty_report_expiry_dates "123456789012"
               (set_Errors_found RegistryErrorDict__init__)) Registry_new)
  /\ expiry_check test_date_format Py.strptime other_row Registry_new
     = Returns tt Registry_new.
Proof.
  split; [reflexivity|].
  destruct (expiry_check_soft test_date_format Py.strptime test_max_str_digits row_with_bad_date
              RegistryErrorDict__init__ Registry_new)
    as (_ & Bad & _); [reflexivity|discriminate|reflexivity|].
  destruct (expiry_check_soft test_date_format Py.strptime test_max_str_digits other_row
              RegistryErrorDict__init__ Registry_new)
    as (Empty & _ & _); [reflexivity|discriminate|reflexivity|].
  split.
  - apply Bad; [discriminate|reflexivity].
  - apply Empty. reflexivity.
Defined.

Lemma Errors_found_monotone_witness :
  (exists b e',
      _registry_row_is_addable test_date_format Py.strptime test_max_str_digits
        acceptable_row Registry_with_errors
      = Returns b (with_Errors e' Registry_with_errors)
      /\ Errors_found e' = true)
  /\ (exists w' e',
        load_from_file test_date_format Py.strptime test_max_str_digits
          [acceptable_row; other_row] Registry_with_errors
        = Returns tt w'
        /\ self w' !! "Errors" = Some (VErrors e')
        /\ Errors_found e' = true)
  /\ (exists b e',
        _registry_row_is_addable test_date_format Py.strptime
          test_max_str_digits row_with_bad_date Registry_new
        = Returns b (with_Errors e' Registry_new)
        /\ Errors_found e' = true)
  /\ (exists w' e',
        load_from_file test_date_format Py.strptime test_max_str_digits
          [acceptable_row; row_with_bad_months; other_row] Registry_new
        = Returns tt w'
        /\ self w' !! "Errors" = Some (VErrors e')
        /\ Errors_found e' = true)
  /\ (exists b e',
        _registry_row_is_addable test_date_format Py.strptime
          test_max_str_digits acceptable_row Registry_new
        = Returns b (with_Errors e' Registry_new)
        /\ Errors_found e' = false).
Proof.
  destruct (Errors_found_monotone test_date_format Py.strptime
              test_max_str_digits acceptable_row [acceptable_row; other_row]
              report_with_errors Registry_with_errors)
    as (_ & (b1 & e1 & C1 & _ & K1) & (w1 & f1 & L1 & S1 & _ & M1));
    [vm_compute; reflexivity|].
  destruct (Errors_found_monotone test_date_format Py.strptime
              test_max_str_digits row_with_bad_date
              [acceptable_row; row_with_bad_months; other_row]
              RegistryErrorDict__init__ Registry_new)
    as (_ & (b2 & e2 & C2 & F2 & _) & (w2 & f2 & L2 & S2 & G2 & _));
    [reflexivity|].
  destruct (Errors_found_monotone test_date_format Py.strptime
              test_max_str_digits acceptable_row []
              RegistryErrorDict__init__ Registry_new)
    as (_ & (b3 & e3 & C3 & F3 & _) & _); [reflexivity|].
  split; [|split; [|split; [|split]]].
  - exists b1, e1. split; [exact C1|]. apply K1. reflexivity.
  - exists w1, f1. split; [exact L1|]. split; [exact S1|]. apply M1. reflexivity.
  - exists b2, e2. split; [exact C2|]. rewrite F2. vm_compute. reflexivity.
  - exists w2, f2. split; [exact L2|]. split; [exact S2|].
    rewrite G2. vm_compute. reflexivity.
  - exists b3, e3. split; [exact C3|]. rewrite F3. vm_compute. reflexivity.
Defined.

Lemma EPS_conversion_total_witness :
  _string_to_decimal "-3.1400" = Py.Finite true 31400 (-4)
  /\ _string_to_decimal "+0042" = Py.Finite false 42 0
  /\ _string_to_decimal "1,5" = Decimal_0
  /\ _string_to_decimal "1e1000000000000000000" = Decimal_0
  /\ _registry_row_is_addable test_date_format Py.strptime test_max_str_digits
       (with_EPS "1,5" acceptable_row) Registry_new
     = _registry_row_is_addable test_date_format Py.strptime
         test_max_str_digits acceptable_row Registry_new.
Proof.
  destruct (EPS_conversion_total test_date_format Py.strptime
              test_max_str_digits "1,5" (Some true) "3" "1400"
              acceptable_row ∅ Registry_new)
    as (Zero & _ & Plain & _ & _ & _ & Same & _).
  destruct (EPS_conversion_total test_date_format Py.strptime
              test_max_str_digits "1e1000000000000000000" (Some false) "0042"
              EmptyString acceptable_row ∅ Registry_new)
    as (Big & _ & _ & Integer & _).
  split; [|split; [|split; [|split]]].
  - apply Plain; [reflexivity|reflexivity|discriminate|].
    vm_compute. discriminate.
  - apply Integer; [reflexivity|discriminate|]. vm_compute. discriminate.
  - exact Zero.
  - exact Big.
  - exact Same.
Defined.

Lemma Errors_key_always_bound_witness :
  (exists e, self Registry_new !! "Errors" = Some (VErrors e))
  /\ size (self Registry_new) = S (size (stocks (self Registry_new)))
  /\ size (self Registry_new) ≠ 0%nat.
Proof.
  destruct (Errors_key_always_bound test_date_format Py.strptime test_max_str_digits Registry_new)
    as (E & _ & S & Z & _).
  - apply (reach_init test_date_format Py.strptime test_max_str_digits [] Registry_new). reflexivity.
  - split; [exact E|]. split; [exact S|exact Z].
Defined.

(** ** The unit tests of the module, run on the model *)

Example test_missing_isin :
  _registry_row_is_addable test_date_format Py.strptime test_max_str_digits row_without_ISIN
    Registry_new
  = Returns false
      (with_Errors (mkErrors true 1 ∅ ∅ ∅ ∅) Registry_new).
Proof. vm_compute. reflexivity. Qed.

Example test_faulty_isin :
  _registry_row_is_addable test_date_format Py.strptime test_max_str_digits row_with_short_ISIN
    Registry_new
  = Returns false
      (with_Errors (mkErrors true 0 {["12345678901"]} ∅ ∅ ∅) Registry_new).
Proof. vm_compute. reflexivity. Qed.

Example test_missing_name :
  _registry_row_is_addable test_date_format Py.strptime test_max_str_digits
    (mkRow "123456789012" EmptyString "12.34" EmptyString "2000.01.01" "http" "http")
    Registry_new
  = Returns true
      (with_Errors (mkErrors true 0 ∅ {["123456789012"]} ∅ ∅) Registry_new).
Proof. vm_compute. reflexivity. Qed.

Example test_unacceptable_months :
  Forall
    (fun months =>
       _registry_row_is_addable test_date_format Py.strptime test_max_str_digits
         (mkRow "123456789012" "Company" "12.34" months "2000.01.01" "http" "http")
         Registry_new
       = Returns true
           (with_Errors (mkErrors true 0 ∅ ∅ {["123456789012"]} ∅) Registry_new))
    ["X"; "4"].
Proof. repeat constructor; vm_compute; reflexivity. Qed.

Example test_acceptable_months :
  Forall
    (fun months =>
       _registry_row_is_addable test_date_format Py.strptime test_max_str_digits
         (mkRow "123456789012" "Company" "12.34" months "2000.01.01" "http" "http")
         Registry_new
       = Returns true Registry_new)
    [EmptyString; "3"; "6"; "9"; "12"].
Proof. repeat constructor; vm_compute; reflexivity. Qed.

Example test_unacceptable_expiry_date :
  _registry_row_is_addable test_date_format Py.strptime test_max_str_digits
    (mkRow "123456789012" "Company" "12.34" EmptyString "20000.01.01" "http" "http")
    Registry_new
  = Returns true
      (with_Errors (mkErrors true 0 ∅ ∅ ∅ {["123456789012"]}) Registry_new).
Proof. vm_compute. reflexivity. Qed.

Example test_acceptable_expiry_dates :
  Forall
    (fun date =>
       _registry_row_is_addable test_date_format Py.strptime test_max_str_digits
         (mkRow "123456789012" "Company" "12.34" EmptyString date "http" "http")
         Registry_new
       = Returns true Registry_new)
    [EmptyString; "2000.01.01"].
Proof. repeat constructor; vm_compute; reflexivity. Qed.

Example test_acceptable_row :
  _registry_row_is_addable test_date_format Py.strptime test_max_str_digits acceptable_row Registry_new
  = Returns true Registry_new
  /\ _registry_row_from_csv acceptable_row
     = mkStockData "Company" (Py.Finite false 1234 (-2)) "3" "2000.01.01"
         "http" "http".
Proof. split; vm_compute; reflexivity. Qed.

(** A new registry is what [__init__] leaves on an empty dictionary. *)
Example Registry_new_is_constructed :
  Registry__init__ new_object = Returns tt Registry_new.
Proof. reflexivity. Qed.

(** ** More of the row check *)

Section More.

Variable date_format : string.
Variable strptime : string -> string -> option Py.datetime.
Variable max_str_digits : nat.

Lemma update_Errors_raises f w :
  (forall e, self w !! "Errors" ≠ Some (VErrors e)) ->
  update_Errors f w = Raises (KeyError "Errors").
Proof.
  intros H. unfold update_Errors, bind, self_Errors.
  destruct (self w !! "Errors") as [[e|d]|] eqn:L; try done.
  by destruct (H e).
Qed.

(** The check in a dictionary that has no report under ['Errors']. *)
Lemma _registry_row_is_addable_no_report row w :
  (forall e, self w !! "Errors" ≠ Some (VErrors e)) ->
  _registry_row_is_addable date_format strptime max_str_digits row w
  = if triggers date_format strptime max_str_digits row
    then Raises (KeyError "Errors") else Returns true w.
Proof.
  intros H. unfold _registry_row_is_addable, triggers.
  destruct (String.eqb (ISIN row) EmptyString); simpl.
  { unfold bind. by rewrite (update_Errors_raises _ w H). }
  destruct (Nat.eqb (String.length (ISIN row)) 12); simpl;
    [|unfold bind; by rewrite (update_Errors_raises _ w H)].
  unfold bind at 1, name_check.
  destruct (String.eqb (Name row) EmptyString); simpl.
  { unfold bind. by rewrite (update_Errors_raises _ w H). }
  unfold bind at 1, months_check, try_except_ValueError.
  rewrite !is_Some_bool_decide.
  destruct (months_body max_str_digits row) as [[]|]; simpl;
    [|unfold bind; by rewrite (update_Errors_raises _ w H)].
  unfold bind at 1, expiry_check, try_except_ValueError.
  destruct (expiry_body date_format strptime row) as [[]|]; simpl;
    [done|unfold bind; by rewrite (update_Errors_raises _ w H)].
Qed.

(** Whatever the dictionary holds under ['Errors']. *)
Lemma _registry_row_is_addable_cases row w :
  (exists e, self w !! "Errors" = Some (VErrors e)
             /\ _registry_row_is_addable date_format strptime max_str_digits row w
                = Returns (addable row)
                    (with_Errors (report_after date_format strptime max_str_digits row e) w))
  \/ ((forall e, self w !! "Errors" ≠ Some (VErrors e))
      /\ _registry_row_is_addable date_format strptime max_str_digits row w
         = if triggers date_format strptime max_str_digits row
           then Raises (KeyError "Errors") else Returns true w).
Proof.
  destruct (self w !! "Errors") as [[e|d]|] eqn:L.
  - left. exists e. split; [done|]. by apply _registry_row_is_addable_run.
  - right. assert (forall e, self w !! "Errors" ≠ Some (VErrors e)) as H
      by (intros e; rewrite L; discriminate).
    split; [done|]. by apply _registry_row_is_addable_no_report.
  - right. assert (forall e, self w !! "Errors" ≠ Some (VErrors e)) as H
      by (intros e; rewrite L; discriminate).
    split; [done|]. by apply _registry_row_is_addable_no_report.
Qed.

Lemma triggers_false_addable row :
  triggers date_format strptime max_str_digits row = false -> addable row = true.
Proof.
  unfold triggers, addable.
  destruct (String.eqb (ISIN row) EmptyString); [done|].
  by destruct (Nat.eqb (String.length (ISIN row)) 12).
Qed.

Lemma addable_length row :
  addable row = true <-> String.length (ISIN row) = 12%nat.
Proof.
  unfold addable. split.
  - intros H. apply andb_true_iff in H as [_ H]. by apply Nat.eqb_eq.
  - intros H. rewrite H. destruct (String.eqb (ISIN row) EmptyString) eqn:E; [|done].
    apply String.eqb_eq in E. rewrite E in H. discriminate H.
Qed.

Lemma after_expiry_invalid row e :
  after_expiry date_format strptime row e
  = if expiry_invalid date_format strptime row
    then add_Faulty_report_expiry_dates (ISIN row) (set_Errors_found e) else e.
Proof.
  unfold after_expiry, expiry_body, expiry_invalid.
  rewrite is_Some_bool_decide.
  destruct (String.eqb (Report_Expiry_Date row) EmptyString); [done|].
  by destruct (strptime (Report_Expiry_Date row) date_format).
Qed.

(** The report a row with a 12-character ISIN leaves, field by field. *)
Lemma report_after_addable row e :
  addable row = true ->
  report_after date_format strptime max_str_digits row e
  = {| Errors_found :=
         Errors_found e || String.eqb (Name row) EmptyString
         || months_invalid max_str_digits row || expiry_invalid date_format strptime row;
       Number_of_missing_ISINs := Number_of_missing_ISINs e;
       Faulty_ISINs := Faulty_ISINs e;
       Missing_names :=
         if String.eqb (Name row) EmptyString
         then {[ISIN row]} ∪ Missing_names e else Missing_names e;
       Faulty_months_in_report :=
         if months_invalid max_str_digits row
         then {[ISIN row]} ∪ Faulty_months_in_report e
         else Faulty_months_in_report e;
       Faulty_report_expiry_dates :=
         if expiry_invalid date_format strptime row
         then {[ISIN row]} ∪ Faulty_report_expiry_dates e
         else Faulty_report_expiry_dates e |}.
Proof.
  intros A. unfold report_after. unfold addable in A.
  apply andb_true_iff in A as [A1 A2]. apply negb_true_iff in A1.
  rewrite A1, A2. cbn [negb].
  rewrite after_expiry_invalid, after_months_invalid. unfold after_name.
  destruct e as [fl n s1 s2 s3 s4].
  destruct (String.eqb (Name row) EmptyString), (months_invalid max_str_digits row),
    (expiry_invalid date_format strptime row);
    cbn; by rewrite ?orb_true_r, ?orb_false_r.
Qed.

Lemma report_after_missing row e :
  missing_ISIN row = true ->
  report_after date_format strptime max_str_digits row e
  = incr_Number_of_missing_ISINs (set_Errors_found e).
Proof. unfold missing_ISIN, report_after. by intros ->. Qed.

Lemma report_after_faulty row e :
  faulty_ISIN row = true ->
  report_after date_format strptime max_str_digits row e
  = add_Faulty_ISINs (ISIN row) (set_Errors_found e).
Proof.
  unfold faulty_ISIN, report_after. intros H.
  apply andb_true_iff in H as [H1 H2]. apply negb_true_iff in H1.
  by rewrite H1, H2.
Qed.

(** Every row is of one of three kinds. *)
Lemma row_kinds row :
  missing_ISIN row = true \/ faulty_ISIN row = true \/ addable row = true.
Proof.
  unfold missing_ISIN, faulty_ISIN, addable.
  destruct (String.eqb (ISIN row) EmptyString); [by left|right].
  destruct (Nat.eqb (String.length (ISIN row)) 12); [by right|by left].
Qed.

Lemma union_singleton_twice (x : string) (s : gset string) :
  {[x]} ∪ ({[x]} ∪ s) = {[x]} ∪ s.
Proof. by rewrite (assoc_L (∪)), union_idemp_L. Qed.

Lemma report_after_twice row e :
  ISIN row ≠ EmptyString ->
  report_after date_format strptime max_str_digits row (report_after date_format strptime max_str_digits row e)
  = report_after date_format strptime max_str_digits row e.
Proof.
  intros N. destruct (row_kinds row) as [M|[F|A]].
  - unfold missing_ISIN in M. by apply String.eqb_eq in M.
  - rewrite !(report_after_faulty row _ F). destruct e as [fl n s1 s2 s3 s4].
    unfold add_Faulty_ISINs, set_Errors_found. cbn.
    by rewrite union_singleton_twice.
  - rewrite !(report_after_addable row _ A). destruct e as [fl n s1 s2 s3 s4].
    cbn.
    destruct (String.eqb (Name row) EmptyString), (months_invalid max_str_digits row),
      (expiry_invalid date_format strptime row);
      cbn; by rewrite ?orb_true_r, ?orb_false_r, ?union_singleton_twice.
Qed.

(** X1. For a row with a 12-character ISIN the name check sets
    ['Errors found'] and adds the ISIN to ['Missing names'] when the name is
    empty, and changes nothing when it is not; the row is addable either
    way. *)
Theorem name_check_soft (row : Row) (e : RegistryErrorDict) (w : World) :
  self w !! "Errors" = Some (VErrors e) ->
  String.length (ISIN row) = 12%nat ->
  name_check row w
  = Returns tt
      (if String.eqb (Name row) EmptyString
       then with_Errors (add_Missing_names (ISIN row) (set_Errors_found e)) w
       else w)
  /\ exists e',
      _registry_row_is_addable date_format strptime max_str_digits row w
      = Returns true (with_Errors e' w)
      /\ Missing_names e'
         = (if String.eqb (Name row) EmptyString
            then {[ISIN row]} ∪ Missing_names e else Missing_names e)
      /\ (Name row = EmptyString -> Errors_found e' = true).
Proof.
  intros H L. apply addable_length in L as A. split.
  - rewrite (name_check_run row e w H). unfold after_name.
    destruct (String.eqb (Name row) EmptyString); [done|].
    by rewrite with_Errors_same.
  - exists (report_after date_format strptime max_str_digits row e).
    rewrite (_registry_row_is_addable_run _ _ _ row e w H), A.
    split; [done|]. rewrite (report_after_addable row e A). cbn.
    split; [done|]. intros N. apply String.eqb_eq in N. rewrite N.
    by rewrite orb_true_r.
Qed.

(** X2. The three soft checks add up: a row with a 12-character ISIN is
    addable, and the report it leaves has the ISIN in ['Missing names'],
    ['Faulty months in report'] and ['Faulty report expiry dates'], each
    exactly when its own check fails, the flag or-ed with the three, and
    the counter and ['Faulty ISINs'] as they were. *)
Theorem soft_errors_accumulate (row : Row) (e : RegistryErrorDict) (w : World) :
  self w !! "Errors" = Some (VErrors e) ->
  String.length (ISIN row) = 12%nat ->
  _registry_row_is_addable date_format strptime max_str_digits row w
  = Returns true
      (with_Errors
         {| Errors_found :=
              Errors_found e || String.eqb (Name row) EmptyString
              || months_invalid max_str_digits row || expiry_invalid date_format strptime row;
            Number_of_missing_ISINs := Number_of_missing_ISINs e;
            Faulty_ISINs := Faulty_ISINs e;
            Missing_names :=
              if String.eqb (Name row) EmptyString
              then {[ISIN row]} ∪ Missing_names e else Missing_names e;
            Faulty_months_in_report :=
              if months_invalid max_str_digits row
              then {[ISIN row]} ∪ Faulty_months_in_report e
              else Faulty_months_in_report e;
            Faulty_report_expiry_dates :=
              if expiry_invalid date_format strptime row
              then {[ISIN row]} ∪ Faulty_report_expiry_dates e
              else Faulty_report_expiry_dates e |} w).
Proof.
  intros H L. apply addable_length in L as A.
  rewrite (_registry_row_is_addable_run _ _ _ row e w H), A.
  by rewrite (report_after_addable row e A).
Qed.

(** X3. The check touches nothing but the report: whenever it returns, the
    log is as it was, every key other than ['Errors'] is bound as it was,
    and the dictionary has the same keys. *)
Theorem check_changes_only_Errors (row : Row) (w w' : World) (b : bool) :
  _registry_row_is_addable date_format strptime max_str_digits row w = Returns b w' ->
  logged w' = logged w
  /\ (forall k, k ≠ "Errors" -> self w' !! k = self w !! k)
  /\ dom (self w') = dom (self w).
Proof.
  intros R.
  destruct (_registry_row_is_addable_cases row w) as [(e & L & C)|(N & C)];
    rewrite C in R.
  - inversion R; subst. cbn [with_Errors logged self].
    split; [done|]. split.
    + intros k Hk. by rewrite lookup_insert_ne.
    + rewrite dom_insert_L. apply elem_of_dom_2 in L.
      by apply subseteq_union_1_L, singleton_subseteq_l.
  - destruct (triggers date_format strptime max_str_digits row); [discriminate R|].
    by inversion R; subst.
Qed.

(** X4. Only the ISIN decides: in any dictionary, when the check returns,
    it returns [True] exactly for a row whose ISIN has 12 characters; the
    name, the months and the expiry date never make a row unaddable. *)
Theorem addable_iff_ISIN_length (row : Row) (w w' : World) (b : bool) :
  _registry_row_is_addable date_format strptime max_str_digits row w = Returns b w' ->
  (b = true <-> String.length (ISIN row) = 12%nat).
Proof.
  intros R. rewrite <- addable_length.
  destruct (_registry_row_is_addable_cases row w) as [(e & L & C)|(N & C)];
    rewrite C in R.
  - inversion R; subst. done.
  - destruct (triggers date_format strptime max_str_digits row) eqn:T; [discriminate R|].
    inversion R; subst. by rewrite (triggers_false_addable row T).
Qed.

(** X5. In a dictionary with no ['Errors'] key the check raises
    [KeyError('Errors')] for every row that falls in one of the five
    categories, and for every other row returns [True] and changes
    nothing. *)
Theorem check_without_Errors_key (row : Row) (w : World) :
  self w !! "Errors" = None ->
  _registry_row_is_addable date_format strptime max_str_digits row w
  = if in_a_category date_format strptime max_str_digits row
    then Raises (KeyError "Errors") else Returns true w.
Proof.
  intros N. rewrite <- triggers_in_a_category.
  apply _registry_row_is_addable_no_report.
  intros e. rewrite N. discriminate.
Qed.

(** X6. Checking a row that has an ISIN a second time changes nothing: the
    sets take each ISIN once.  (A row without ISIN is counted each time.) *)
Theorem check_twice_same (row : Row) (e : RegistryErrorDict) (w : World) :
  self w !! "Errors" = Some (VErrors e) ->
  ISIN row ≠ EmptyString ->
  exists b w1,
    _registry_row_is_addable date_format strptime max_str_digits row w = Returns b w1
    /\ _registry_row_is_addable date_format strptime max_str_digits row w1 = Returns b w1.
Proof.
  intros H N.
  exists (addable row), (with_Errors (report_after date_format strptime max_str_digits row e) w).
  split; [by apply _registry_row_is_addable_run|].
  rewrite (_registry_row_is_addable_run _ _ _ row
             (report_after date_format strptime max_str_digits row e))
    by apply with_Errors_lookup.
  by rewrite with_Errors_twice, (report_after_twice row e N).
Qed.

End More.

(** ** More of the load *)

Section Loads.

Variable date_format : string.
Variable strptime : string -> string -> option Py.datetime.
Variable max_str_digits : nat.

Lemma report_after_rows_app rows1 rows2 e :
  report_after_rows date_format strptime max_str_digits (rows1 ++ rows2) e
  = report_after_rows date_format strptime max_str_digits rows2
      (report_after_rows date_format strptime max_str_digits rows1 e).
Proof. unfold report_after_rows. apply foldl_app. Qed.

Lemma dict_of_rows_app rows1 rows2 d :
  dict_of_rows (rows1 ++ rows2) d = dict_of_rows rows2 (dict_of_rows rows1 d).
Proof. unfold dict_of_rows. apply foldl_app. Qed.

Lemma dict_of_rows_cons row rows d :
  dict_of_rows (row :: rows) d
  = dict_of_rows rows
      (if addable row then <[ISIN row := _registry_row_from_csv row]> d else d).
Proof. reflexivity. Qed.

Lemma dict_of_rows_lookup k rows : forall d,
  dict_of_rows rows d !! k
  = match last_addable k rows with
    | Some r => Some (_registry_row_from_csv r)
    | None => d !! k
    end.
Proof.
  induction rows as [|row rows IH]; intros d; [done|].
  rewrite dict_of_rows_cons, IH. cbn [last_addable].
  destruct (last_addable k rows) as [r|]; [done|].
  destruct (addable row); cbn [andb]; [|done].
  destruct (String.eqb (ISIN row) k) eqn:E.
  - apply String.eqb_eq in E. subst k. apply lookup_insert_eq.
  - apply String.eqb_neq in E. by apply lookup_insert_ne.
Qed.

Lemma last_addable_Some k rows r :
  last_addable k rows = Some r ->
  addable r = true /\ ISIN r = k /\ r ∈ rows.
Proof.
  induction rows as [|row rows IH]; [done|]. cbn [last_addable].
  destruct (last_addable k rows) as [r'|].
  - intros E. inversion E; subst. destruct (IH eq_refl) as (A & I & M).
    split; [done|]. split; [done|]. by right.
  - destruct (addable row) eqn:A; cbn [andb]; [|done].
    destruct (String.eqb (ISIN row) k) eqn:E; [|done].
    intros R. inversion R; subst. apply String.eqb_eq in E.
    split; [done|]. split; [done|]. by left.
Qed.

Lemma dict_of_rows_union rows d :
  dict_of_rows rows d = dict_of_rows rows ∅ ∪ d.
Proof.
  apply map_eq. intros k. rewrite lookup_union, !dict_of_rows_lookup.
  destruct (last_addable k rows) as [r|].
  - by destruct (d !! k).
  - rewrite lookup_empty. by destruct (d !! k).
Qed.

Lemma loaded_dict_lookup rows e m k :
  k ≠ "Errors" ->
  loaded_dict date_format strptime max_str_digits rows e m !! k
  = match last_addable k rows with
    | Some r => Some (VStock (_registry_row_from_csv r))
    | None => m !! k
    end.
Proof.
  intros N. unfold loaded_dict.
  rewrite lookup_union, lookup_fmap, dict_of_rows_lookup.
  rewrite lookup_insert_ne by done.
  destruct (last_addable k rows) as [r|]; cbn.
  - by destruct (m !! k).
  - rewrite lookup_empty. by destruct (m !! k).
Qed.

Lemma loaded_dict_app rows1 rows2 e m :
  loaded_dict date_format strptime max_str_digits rows2
    (report_after_rows date_format strptime max_str_digits rows1 e)
    (loaded_dict date_format strptime max_str_digits rows1 e m)
  = loaded_dict date_format strptime max_str_digits (rows1 ++ rows2) e m.
Proof.
  unfold loaded_dict.
  pose proof (dict_of_rows_Errors rows1 ∅ (lookup_empty _)) as D1.
  rewrite insert_union_r by (by rewrite lookup_fmap, D1).
  rewrite insert_insert_eq, (assoc_L (∪)), <- map_fmap_union.
  by rewrite report_after_rows_app, dict_of_rows_app, <- dict_of_rows_union.
Qed.

Lemma ISINs_where_cons p row rows :
  ISINs_where p (row :: rows)
  = if p row then {[ISIN row]} ∪ ISINs_where p rows else ISINs_where p rows.
Proof. unfold ISINs_where. cbn [List.filter]. by destruct (p row). Qed.

Lemma union_move (x : string) (s t : gset string) :
  ({[x]} ∪ s) ∪ t = s ∪ ({[x]} ∪ t).
Proof. by rewrite (comm_L (∪) {[x]} s), <- (assoc_L (∪)). Qed.

Lemma dict_of_rows_dom rows : forall d,
  dom (dict_of_rows rows d) = dom d ∪ ISINs_where addable rows.
Proof.
  induction rows as [|row rows IH]; intros d.
  - unfold ISINs_where. cbn. by rewrite (right_id_L ∅ (∪)).
  - rewrite dict_of_rows_cons, IH, ISINs_where_cons.
    destruct (addable row); [|done].
    by rewrite dom_insert_L, union_move.
Qed.

Lemma loaded_dict_dom rows e m :
  "Errors" ∈ dom m ->
  dom (loaded_dict date_format strptime max_str_digits rows e m)
  = dom m ∪ ISINs_where addable rows.
Proof.
  intros E. unfold loaded_dict.
  rewrite dom_union_L, dom_fmap_L, dict_of_rows_dom, dom_insert_L, dom_empty_L.
  rewrite (left_id_L ∅ (∪)).
  rewrite (subseteq_union_1_L {["Errors"]} (dom m))
    by (by apply singleton_subseteq_l).
  apply (comm_L (∪)).
Qed.

(** What one row adds to each field of the report. *)
Lemma report_after_fields row e :
  Number_of_missing_ISINs (report_after date_format strptime max_str_digits row e)
  = Number_of_missing_ISINs e + (if missing_ISIN row then 1 else 0)
  /\ Faulty_ISINs (report_after date_format strptime max_str_digits row e)
     = (if faulty_ISIN row then {[ISIN row]} ∪ Faulty_ISINs e
        else Faulty_ISINs e)
  /\ Missing_names (report_after date_format strptime max_str_digits row e)
     = (if missing_name row then {[ISIN row]} ∪ Missing_names e
        else Missing_names e)
  /\ Faulty_months_in_report (report_after date_format strptime max_str_digits row e)
     = (if faulty_months max_str_digits row then {[ISIN row]} ∪ Faulty_months_in_report e
        else Faulty_months_in_report e)
  /\ Faulty_report_expiry_dates (report_after date_format strptime max_str_digits row e)
     = (if faulty_expiry date_format strptime row
        then {[ISIN row]} ∪ Faulty_report_expiry_dates e
        else Faulty_report_expiry_dates e).
Proof.
  destruct (row_kinds row) as [M|[F|A]].
  - rewrite (report_after_missing _ _ _ row e M).
    unfold faulty_ISIN, missing_name, faulty_months, faulty_expiry, addable.
    unfold missing_ISIN in *. rewrite M. cbn. repeat split; lia.
  - rewrite (report_after_faulty _ _ _ row e F).
    unfold missing_name, faulty_months, faulty_expiry, addable, missing_ISIN.
    rewrite F. unfold faulty_ISIN in F. apply andb_true_iff in F as [F1 F2].
    apply negb_true_iff in F1, F2. rewrite F1, F2. cbn. repeat split; lia.
  - rewrite (report_after_addable _ _ _ row e A).
    unfold missing_name, faulty_months, faulty_expiry, missing_ISIN, faulty_ISIN.
    rewrite A. unfold addable in A. apply andb_true_iff in A as [A1 A2].
    apply negb_true_iff in A1. rewrite A1, A2. cbn. repeat split; lia.
Qed.

Lemma report_after_rows_fields rows : forall e,
  Number_of_missing_ISINs (report_after_rows date_format strptime max_str_digits rows e)
  = Number_of_missing_ISINs e
    + Z.of_nat (length (List.filter missing_ISIN rows))
  /\ Faulty_ISINs (report_after_rows date_format strptime max_str_digits rows e)
     = Faulty_ISINs e ∪ ISINs_where faulty_ISIN rows
  /\ Missing_names (report_after_rows date_format strptime max_str_digits rows e)
     = Missing_names e ∪ ISINs_where missing_name rows
  /\ Faulty_months_in_report (report_after_rows date_format strptime max_str_digits rows e)
     = Faulty_months_in_report e ∪ ISINs_where (faulty_months max_str_digits) rows
  /\ Faulty_report_expiry_dates
       (report_after_rows date_format strptime max_str_digits rows e)
     = Faulty_report_expiry_dates e
       ∪ ISINs_where (faulty_expiry date_format strptime) rows.
Proof.
  induction rows as [|row rows IH]; intros e.
  - unfold ISINs_where. cbn. rewrite !(right_id_L ∅ (∪)).
    repeat split. lia.
  - change (report_after_rows date_format strptime max_str_digits (row :: rows) e)
      with (report_after_rows date_format strptime max_str_digits rows
              (report_after date_format strptime max_str_digits row e)).
    destruct (IH (report_after date_format strptime max_str_digits row e))
      as (-> & -> & -> & -> & ->).
    destruct (report_after_fields row e) as (-> & -> & -> & -> & ->).
    rewrite !ISINs_where_cons. cbn [List.filter].
    destruct (missing_ISIN row), (faulty_ISIN row), (missing_name row),
      (faulty_months max_str_digits row), (faulty_expiry date_format strptime row);
      cbn [length]; rewrite ?union_move; repeat split; lia.
Qed.

(** X7. The report after a load: the counter has grown by the number of
    rows without ISIN, one for each such row; ['Faulty ISINs'] has gained
    the ISINs that are not empty and not 12 characters long; the three other
    sets have gained the ISINs of the addable rows with an empty name, with
    an invalid months code and with an invalid expiry date. *)
Theorem report_after_load (rows : list Row) (e : RegistryErrorDict) (w : World) :
  self w !! "Errors" = Some (VErrors e) ->
  exists w' e',
    load_from_file date_format strptime max_str_digits rows w = Returns tt w'
    /\ self w' !! "Errors" = Some (VErrors e')
    /\ Number_of_missing_ISINs e'
       = Number_of_missing_ISINs e
         + Z.of_nat (length (List.filter missing_ISIN rows))
    /\ Faulty_ISINs e' = Faulty_ISINs e ∪ ISINs_where faulty_ISIN rows
    /\ Missing_names e' = Missing_names e ∪ ISINs_where missing_name rows
    /\ Faulty_months_in_report e'
       = Faulty_months_in_report e ∪ ISINs_where (faulty_months max_str_digits) rows
    /\ Faulty_report_expiry_dates e'
       = Faulty_report_expiry_dates e
         ∪ ISINs_where (faulty_expiry date_format strptime) rows.
Proof.
  intros H. eexists. exists (report_after_rows date_format strptime max_str_digits rows e).
  split; [by apply load_from_file_run|]. cbn [self].
  split; [apply loaded_dict_Errors|]. apply report_after_rows_fields.
Qed.

(** X8. The keys after a load are the keys before it and the ISINs of the
    addable rows of the batch: no key is removed, and no rejected row
    becomes a key. *)
Theorem keys_after_load (rows : list Row) (e : RegistryErrorDict) (w : World) :
  self w !! "Errors" = Some (VErrors e) ->
  exists w',
    load_from_file date_format strptime max_str_digits rows w = Returns tt w'
    /\ dom (self w') = dom (self w) ∪ ISINs_where addable rows.
Proof.
  intros H. eexists. split; [by apply load_from_file_run|]. cbn [self].
  apply loaded_dict_dom. by apply elem_of_dom_2 in H.
Qed.

(** X9. What a key is bound to after a load: the stock built from the last
    addable row of the batch with that ISIN, an earlier row of the same
    ISIN and an earlier stock under that key being overwritten; a key no
    addable row of the batch has keeps what it was bound to. *)
Theorem lookup_after_load
    (rows : list Row) (e : RegistryErrorDict) (w : World) (k : string) :
  self w !! "Errors" = Some (VErrors e) ->
  k ≠ "Errors" ->
  exists w',
    load_from_file date_format strptime max_str_digits rows w = Returns tt w'
    /\ self w' !! k
       = match last_addable k rows with
         | Some r => Some (VStock (_registry_row_from_csv r))
         | None => self w !! k
         end.
Proof.
  intros H N. eexists. split; [by apply load_from_file_run|]. cbn [self].
  by apply loaded_dict_lookup.
Qed.

(** X10. Loading a batch and then another leaves the dictionary, report
    included, that loading the two as one batch leaves. *)
Theorem load_in_two_batches
    (rows1 rows2 : list Row) (e : RegistryErrorDict) (w : World) :
  self w !! "Errors" = Some (VErrors e) ->
  exists w1 w2 w12,
    load_from_file date_format strptime max_str_digits rows1 w = Returns tt w1
    /\ load_from_file date_format strptime max_str_digits rows2 w1 = Returns tt w2
    /\ load_from_file date_format strptime max_str_digits (rows1 ++ rows2) w = Returns tt w12
    /\ self w2 = self w12.
Proof.
  intros H. do 3 eexists.
  split; [by apply load_from_file_run|].
  split; [apply load_from_file_run; cbn [self]; apply loaded_dict_Errors|].
  split; [by apply load_from_file_run|].
  cbn [self]. apply loaded_dict_app.
Qed.

(** X11. The line a load logs, for a registry that went through
    [__init__] and any batch: while the flag is [True], also from an
    earlier load, it is 'The following errors found:'; otherwise it is the
    success line, and its number is the number of all stocks in the
    dictionary, those of earlier loads too, plus one. *)
Theorem line_logged_by_load (rows : list Row) (w : World) :
  reachable date_format strptime max_str_digits w ->
  exists w' e',
    load_from_file date_format strptime max_str_digits rows w = Returns tt w'
    /\ self w' !! "Errors" = Some (VErrors e')
    /\ logged w'
       = (logged w
          ++ [if Errors_found e'
              then mkLog ERROR "Registry: The following errors found:" []
              else mkLog INFO "Registry: %d new ISIN loaded. No errors found."
                     [Z.of_nat (size (stocks (self w'))) + 1]])%list.
Proof.
  intros R. pose proof (reachable_shape _ _ _ w R) as Sh.
  destruct (shape_Errors _ Sh) as [e He].
  eexists. exists (report_after_rows date_format strptime max_str_digits rows e).
  split; [by apply load_from_file_run|]. cbn [self logged].
  split; [apply loaded_dict_Errors|].
  unfold loaded_line.
  rewrite (shape_size _ (shape_loaded date_format strptime max_str_digits rows e _ Sh)).
  destruct (Errors_found _); cbn [negb]; [done|].
  by replace (Z.of_nat (S (size (stocks
       (loaded_dict date_format strptime max_str_digits rows e (self w))))))
    with (Z.of_nat (size (stocks
       (loaded_dict date_format strptime max_str_digits rows e (self w)))) + 1) by lia.
Qed.

End Loads.

(** ** What holds of every registry *)

Section Always.

Variable date_format : string.
Variable strptime : string -> string -> option Py.datetime.
Variable max_str_digits : nat.

(** A property of the report that [__init__] sets up and every checked row
    keeps holds in every world a registry goes through. *)
Lemma reachable_report (P : RegistryErrorDict -> Prop) :
  P RegistryErrorDict__init__ ->
  (forall row e, P e -> P (report_after date_format strptime max_str_digits row e)) ->
  forall w, reachable date_format strptime max_str_digits w ->
            exists e, self w !! "Errors" = Some (VErrors e) /\ P e.
Proof.
  intros P0 Pstep.
  assert (forall rows e, P e -> P (report_after_rows date_format strptime max_str_digits rows e))
    as Prows.
  { induction rows as [|row rows IH]; intros e Pe; [done|].
    apply (IH (report_after date_format strptime max_str_digits row e)). by apply Pstep. }
  induction 1 as [l w I|w row b w' R IH C|w rows w' R IH L].
  - rewrite Registry__init__run in I. inversion I; subst. cbn [self].
    exists RegistryErrorDict__init__. split; [apply lookup_singleton_eq|done].
  - destruct IH as (e & He & Pe).
    rewrite (_registry_row_is_addable_run _ _ _ row e w He) in C.
    inversion C; subst.
    exists (report_after date_format strptime max_str_digits row e).
    split; [apply with_Errors_lookup|by apply Pstep].
  - destruct IH as (e & He & Pe).
    rewrite (load_from_file_run _ _ _ rows e w He) in L. inversion L; subst.
    exists (report_after_rows date_format strptime max_str_digits rows e). cbn [self].
    split; [apply loaded_dict_Errors|by apply Prows].
Qed.

Lemma union_singleton_nonempty (x : string) (s : gset string) :
  {[x]} ∪ s ≠ ∅.
Proof.
  intros H. apply (not_elem_of_empty (C:=gset string) x).
  rewrite <- H. apply elem_of_union_l. by apply elem_of_singleton.
Qed.

Lemma flag_agrees_init : flag_agrees RegistryErrorDict__init__.
Proof.
  unfold flag_agrees. cbn. split; [lia|]. split; [done|]. discriminate.
Qed.

Lemma flag_agrees_step row e :
  flag_agrees e -> flag_agrees (report_after date_format strptime max_str_digits row e).
Proof.
  intros (Nonneg & Clean & Dirty).
  destruct (row_kinds row) as [M|[F|A]].
  - rewrite (report_after_missing _ _ _ row e M). unfold flag_agrees. cbn.
    split; [lia|]. split; [discriminate|]. intros _. left. lia.
  - rewrite (report_after_faulty _ _ _ row e F). unfold flag_agrees. cbn.
    split; [done|]. split; [discriminate|]. intros _. right. left.
    apply union_singleton_nonempty.
  - rewrite (report_after_addable _ _ _ row e A). unfold flag_agrees. cbn.
    split; [done|].
    destruct (String.eqb (Name row) EmptyString).
    { rewrite orb_true_r. cbn. split; [discriminate|]. intros _.
      right. right. left. apply union_singleton_nonempty. }
    destruct (months_invalid max_str_digits row).
    { rewrite orb_true_r. cbn. split; [discriminate|]. intros _.
      right. right. right. left. apply union_singleton_nonempty. }
    destruct (expiry_invalid date_format strptime row).
    { rewrite orb_true_r. split; [discriminate|]. intros _.
      right. right. right. right. apply union_singleton_nonempty. }
    rewrite !orb_false_r. split.
    + intros Fl. specialize (Clean Fl). rewrite Clean. rewrite Clean in Fl.
      reflexivity.
    + exact Dirty.
Qed.

Lemma sets_sorted_init : sets_sorted RegistryErrorDict__init__.
Proof.
  unfold sets_sorted. cbn. split; intros k Hk.
  - by apply not_elem_of_empty in Hk.
  - rewrite !(left_id_L ∅ (∪)) in Hk. by apply not_elem_of_empty in Hk.
Qed.

Lemma elem_of_three (k : string) (s1 s2 s3 : gset string) :
  k ∈ s1 ∪ s2 ∪ s3 <-> k ∈ s1 \/ k ∈ s2 \/ k ∈ s3.
Proof. rewrite !elem_of_union. tauto. Qed.

Lemma sets_sorted_step row e :
  sets_sorted e -> sets_sorted (report_after date_format strptime max_str_digits row e).
Proof.
  intros (Faulty & Soft).
  destruct (row_kinds row) as [M|[F|A]].
  - rewrite (report_after_missing _ _ _ row e M). by split.
  - rewrite (report_after_faulty _ _ _ row e F). split; [|exact Soft].
    cbn. intros k Hk. apply elem_of_union in Hk as [Hk|Hk]; [|by apply Faulty].
    apply elem_of_singleton in Hk. subst k.
    unfold faulty_ISIN in F. apply andb_true_iff in F as [F1 F2].
    apply negb_true_iff in F1, F2.
    split; [by apply String.eqb_neq|by apply Nat.eqb_neq].
  - rewrite (report_after_addable _ _ _ row e A). split; [exact Faulty|].
    apply addable_length in A. cbn. intros k Hk.
    apply elem_of_three in Hk.
    assert (forall (c : bool) (s : gset string),
              k ∈ (if c then {[ISIN row]} ∪ s else s) -> k = ISIN row \/ k ∈ s)
      as Cases.
    { intros c s Hc. destruct c; [|by right].
      apply elem_of_union in Hc as [Hc|Hc]; [left|by right].
      by apply elem_of_singleton in Hc. }
    destruct Hk as [Hk|[Hk|Hk]]; apply Cases in Hk as [->|Hk]; try done;
      apply Soft, elem_of_three; tauto.
Qed.

(** Every stock of a registry is under a key of 12 characters. *)
Lemma reachable_keys w :
  reachable date_format strptime max_str_digits w ->
  exists e (d : gmap string StockData),
    (forall k, is_Some (d !! k) -> String.length k = 12%nat)
    /\ self w = <["Errors" := VErrors e]> (VStock <$> d).
Proof.
  induction 1 as [l w I|w row b w' R IH C|w rows w' R IH L].
  - rewrite Registry__init__run in I. inversion I; subst. cbn [self].
    exists RegistryErrorDict__init__, ∅. split.
    + intros k [x Hx]. by rewrite lookup_empty in Hx.
    + by rewrite fmap_empty, insert_empty.
  - destruct IH as (e & d & K & E).
    assert (self w !! "Errors" = Some (VErrors e)) as He
      by (rewrite E; apply lookup_insert_eq).
    rewrite (_registry_row_is_addable_run _ _ _ row e w He) in C.
    inversion C; subst. cbn [with_Errors self].
    exists (report_after date_format strptime max_str_digits row e), d. split; [done|].
    by rewrite E, insert_insert_eq.
  - destruct IH as (e & d & K & E).
    assert (self w !! "Errors" = Some (VErrors e)) as He
      by (rewrite E; apply lookup_insert_eq).
    rewrite (load_from_file_run _ _ _ rows e w He) in L. inversion L; subst.
    cbn [self].
    exists (report_after_rows date_format strptime max_str_digits rows e),
      (dict_of_rows rows ∅ ∪ d).
    split.
    + intros k [x Hx]. rewrite lookup_union, dict_of_rows_lookup in Hx.
      destruct (last_addable k rows) as [r|] eqn:La.
      * destruct (last_addable_Some k rows r La) as (A & <- & _).
        by apply addable_length.
      * rewrite lookup_empty in Hx. apply K.
        destruct (d !! k) as [y|]; [by exists y|discriminate Hx].
    + unfold loaded_dict. rewrite E, insert_insert_eq, map_fmap_union.
      pose proof (dict_of_rows_Errors rows ∅ (lookup_empty _)) as D.
      by rewrite insert_union_r by (by rewrite lookup_fmap, D).
Qed.

(** X12. In every world a registry goes through, a stock is only ever
    under a key of 12 characters: no row the ISIN rules reject gets into
    the dictionary, by a check or by a load. *)
Theorem stock_keys_have_12_characters (w : World) (k : string) (x : StockData) :
  reachable date_format strptime max_str_digits w ->
  self w !! k = Some (VStock x) ->
  String.length k = 12%nat.
Proof.
  intros R L. destruct (reachable_keys w R) as (e & d & K & E).
  rewrite E in L. destruct (decide (k = "Errors")) as [->|N].
  - rewrite lookup_insert_eq in L. discriminate L.
  - rewrite lookup_insert_ne, lookup_fmap in L by done.
    apply K. destruct (d !! k) as [y|]; [by exists y|discriminate L].
Qed.

(** X13. In every world a registry goes through, the flag and the details
    of the report agree: while ['Errors found'] is [False] the report is
    as [__init__] made it, counter 0 and the four sets empty; once it is
    [True] the counter is positive or one of the sets is not empty.  The
    counter is never negative. *)
Theorem flag_agrees_with_report (w : World) (e : RegistryErrorDict) :
  reachable date_format strptime max_str_digits w ->
  self w !! "Errors" = Some (VErrors e) ->
  flag_agrees e.
Proof.
  intros R L.
  destruct (reachable_report flag_agrees flag_agrees_init flag_agrees_step w R)
    as (e' & L' & P).
  rewrite L in L'. by inversion L'; subst.
Qed.

(** X14. In every world a registry goes through, ['Faulty ISINs'] holds
    only texts that are not empty and not 12 characters long, and
    ['Missing names'], ['Faulty months in report'] and
    ['Faulty report expiry dates'] hold only ISINs of 12 characters: the
    soft checks are never run on a row the ISIN rules reject. *)
Theorem report_sets_sorted (w : World) (e : RegistryErrorDict) :
  reachable date_format strptime max_str_digits w ->
  self w !! "Errors" = Some (VErrors e) ->
  sets_sorted e.
Proof.
  intros R L.
  destruct (reachable_report sets_sorted sets_sorted_init sets_sorted_step w R)
    as (e' & L' & P).
  rewrite L in L'. by inversion L'; subst.
Qed.

End Always.

(** ** A blank EPS *)

Lemma lstrip_blank s : blank s = true -> Py.lstrip s = EmptyString.
Proof.
  induction s as [|c r IH]; [done|]. cbn [blank Py.lstrip]. intros H.
  apply andb_true_iff in H as [W B]. rewrite W. by apply IH.
Qed.

(** X15. An EPS text that is empty or all white space gives
    [Decimal('0')]: a row without EPS is stored with EPS 0. *)
Theorem blank_EPS_is_zero (s : string) (row : Row) :
  blank s = true ->
  _string_to_decimal s = Decimal_0
  /\ sd_EPS (_registry_row_from_csv (with_EPS s row)) = Decimal_0.
Proof.
  intros B. assert (Py.Decimal_of_str s = None) as N.
  { unfold Py.Decimal_of_str, Py.strip. by rewrite (lstrip_blank s B). }
  assert (_string_to_decimal s = Decimal_0) as Z.
  { unfold _string_to_decimal. by rewrite N. }
  by split.
Qed.

(** ** The order of the rows, and a dictionary without report *)

Section Order.

Variable date_format : string.
Variable strptime : string -> string -> option Py.datetime.
Variable max_str_digits : nat.

Lemma RegistryErrorDict_eq (e1 e2 : RegistryErrorDict) :
  Errors_found e1 = Errors_found e2 ->
  Number_of_missing_ISINs e1 = Number_of_missing_ISINs e2 ->
  Faulty_ISINs e1 = Faulty_ISINs e2 ->
  Missing_names e1 = Missing_names e2 ->
  Faulty_months_in_report e1 = Faulty_months_in_report e2 ->
  Faulty_report_expiry_dates e1 = Faulty_report_expiry_dates e2 ->
  e1 = e2.
Proof. destruct e1, e2. cbn. by intros -> -> -> -> -> ->. Qed.

Lemma union_swap (x y : string) (s : gset string) :
  {[x]} ∪ ({[y]} ∪ s) = {[y]} ∪ ({[x]} ∪ s).
Proof. by rewrite !(assoc_L (∪)), (comm_L (∪) {[x]} {[y]}). Qed.

Lemma add_if_swap (a b : bool) (x y : string) (s : gset string) :
  (if a then {[x]} ∪ (if b then {[y]} ∪ s else s) else if b then {[y]} ∪ s else s)
  = (if b then {[y]} ∪ (if a then {[x]} ∪ s else s) else if a then {[x]} ∪ s else s).
Proof. destruct a, b; try done. apply union_swap. Qed.

(** Two rows leave the same report in either order. *)
Lemma report_after_swap x y e :
  report_after date_format strptime max_str_digits x (report_after date_format strptime max_str_digits y e)
  = report_after date_format strptime max_str_digits y (report_after date_format strptime max_str_digits x e).
Proof.
  pose proof (report_after_fields date_format strptime max_str_digits x
                (report_after date_format strptime max_str_digits y e)) as (A1 & A2 & A3 & A4 & A5).
  pose proof (report_after_fields date_format strptime max_str_digits y e)
    as (B1 & B2 & B3 & B4 & B5).
  pose proof (report_after_fields date_format strptime max_str_digits y
                (report_after date_format strptime max_str_digits x e)) as (C1 & C2 & C3 & C4 & C5).
  pose proof (report_after_fields date_format strptime max_str_digits x e)
    as (D1 & D2 & D3 & D4 & D5).
  apply RegistryErrorDict_eq.
  - rewrite !report_after_found.
    by rewrite <- !orb_assoc, (orb_comm (triggers date_format strptime max_str_digits y)).
  - rewrite A1, B1, C1, D1. lia.
  - rewrite A2, B2, C2, D2. apply add_if_swap.
  - rewrite A3, B3, C3, D3. apply add_if_swap.
  - rewrite A4, B4, C4, D4. apply add_if_swap.
  - rewrite A5, B5, C5, D5. apply add_if_swap.
Qed.

Lemma report_after_rows_perm rows rows' :
  rows ≡ₚ rows' ->
  forall e, report_after_rows date_format strptime max_str_digits rows e
            = report_after_rows date_format strptime max_str_digits rows' e.
Proof.
  induction 1 as [|x l l' P IH|x y l|l l' l'' P1 IH1 P2 IH2]; intros e.
  - done.
  - apply (IH (report_after date_format strptime max_str_digits x e)).
  - unfold report_after_rows. cbn [foldl]. by rewrite report_after_swap.
  - by rewrite IH1, IH2.
Qed.

Lemma ISINs_where_perm p rows rows' :
  rows ≡ₚ rows' -> ISINs_where p rows = ISINs_where p rows'.
Proof.
  induction 1 as [|x l l' P IH|x y l|l l' l'' P1 IH1 P2 IH2].
  - done.
  - by rewrite !ISINs_where_cons, IH.
  - rewrite !ISINs_where_cons. apply add_if_swap.
  - by rewrite IH1, IH2.
Qed.

(** X16. The report and the keys a load leaves do not depend on the order
    of the rows of the batch.  (Which row a key is bound to does: the last
    one with that ISIN.) *)
Theorem report_ignores_row_order
    (rows rows' : list Row) (e : RegistryErrorDict) (w : World) :
  self w !! "Errors" = Some (VErrors e) ->
  rows ≡ₚ rows' ->
  exists w1 w2 e',
    load_from_file date_format strptime max_str_digits rows w = Returns tt w1
    /\ load_from_file date_format strptime max_str_digits rows' w = Returns tt w2
    /\ self w1 !! "Errors" = Some (VErrors e')
    /\ self w2 !! "Errors" = Some (VErrors e')
    /\ dom (self w1) = dom (self w2).
Proof.
  intros H P. do 2 eexists.
  exists (report_after_rows date_format strptime max_str_digits rows e).
  split; [by apply load_from_file_run|].
  split; [by apply load_from_file_run|]. cbn [self].
  split; [apply loaded_dict_Errors|].
  split; [rewrite (report_after_rows_perm rows rows' P e); apply loaded_dict_Errors|].
  apply elem_of_dom_2 in H.
  rewrite !loaded_dict_dom by done.
  by rewrite (ISINs_where_perm addable rows rows' P).
Qed.

Lemma comprehension_no_report rows : forall d w,
  (forall e, self w !! "Errors" ≠ Some (VErrors e)) ->
  comprehension date_format strptime max_str_digits rows d w
  = if existsb (triggers date_format strptime max_str_digits) rows
    then Raises (KeyError "Errors")
    else Returns (dict_of_rows rows d) w.
Proof.
  induction rows as [|row rows IH]; intros d w H; [done|].
  cbn [comprehension existsb]. unfold bind.
  rewrite (_registry_row_is_addable_no_report _ _ _ row w H).
  destruct (triggers date_format strptime max_str_digits row) eqn:T; [done|].
  rewrite (IH _ w H). cbn [orb]. rewrite dict_of_rows_cons.
  by rewrite (triggers_false_addable _ _ _ row T).
Qed.

Lemma dict_of_rows_first row rows d :
  addable row = true -> dict_of_rows (row :: rows) d ≠ ∅.
Proof.
  intros A E.
  assert (ISIN row ∈ dom (dict_of_rows (row :: rows) d)) as I.
  { rewrite dict_of_rows_dom, ISINs_where_cons, A.
    apply elem_of_union_r, elem_of_union_l. by apply elem_of_singleton. }
  rewrite E, dom_empty_L in I. by apply not_elem_of_empty in I.
Qed.

(** X17. A load into a dictionary with no ['Errors'] key raises
    [KeyError('Errors')], at the first row that falls in a category or at
    the end when the flag is read, unless the batch and the dictionary
    are both empty: only then is 'No ISIN loaded.' logged. *)
Theorem load_without_Errors_key (rows : list Row) (w : World) :
  self w !! "Errors" = None ->
  load_from_file date_format strptime max_str_digits rows w
  = match rows with
    | [] =>
        if decide (self w = ∅)
        then Returns tt
               (mkWorld (self w)
                  (logged w ++ [mkLog ERROR "Registry: No ISIN loaded." []]))
        else Raises (KeyError "Errors")
    | _ :: _ => Raises (KeyError "Errors")
    end.
Proof.
  intros N.
  assert (forall e, self w !! "Errors" ≠ Some (VErrors e)) as H
    by (intros e; rewrite N; discriminate).
  unfold load_from_file. unfold bind at 1.
  rewrite (comprehension_no_report rows ∅ w H).
  destruct (existsb (triggers date_format strptime max_str_digits) rows) eqn:T.
  { destruct rows; [discriminate T|done]. }
  unfold bind at 1, self_update at 1. unfold bind at 1, len_self at 1.
  cbn [self logged].
  assert (((VStock <$> dict_of_rows rows ∅) ∪ self w) !! "Errors" = None) as L.
  { apply lookup_union_None. split; [|done].
    by rewrite lookup_fmap, (dict_of_rows_Errors rows ∅ (lookup_empty _)). }
  destruct rows as [|row rows].
  - change (dict_of_rows [] ∅) with (∅ : gmap string StockData).
    rewrite fmap_empty, (left_id_L ∅ (∪)).
    destruct (decide (self w = ∅)) as [E|E].
    + by rewrite E, map_size_empty.
    + assert ((Z.of_nat (size (self w)) =? 0) = false) as ->.
      { apply Z.eqb_neq. intros Z0. apply E, map_size_empty_iff. lia. }
      cbn [negb]. unfold bind, self_Errors. cbn [self]. by rewrite N.
  - assert ((Z.of_nat (size ((VStock <$> dict_of_rows (row :: rows) ∅) ∪ self w))
             =? 0) = false) as ->.
    { apply Z.eqb_neq. intros Z0.
      assert ((VStock <$> dict_of_rows (row :: rows) ∅) ∪ self w = ∅) as E
        by (apply map_size_empty_iff; lia).
      apply map_positive_l in E. apply fmap_empty_inv in E.
      cbn [existsb] in T. apply orb_false_iff in T as [T _].
      by apply (dict_of_rows_first row rows ∅ (triggers_false_addable _ _ _ row T)). }
    cbn [negb]. unfold bind, self_Errors. cbn [self]. by rewrite L.
Qed.

End Order.

(** ** The further properties at the rows of the tests *)

Lemma name_check_soft_witness :
  name_check row_with_soft_errors Registry_new
  = Returns tt
      (with_Errors
         (add_Missing_names "123456789012"
            (set_Errors_found RegistryErrorDict__init__)) Registry_new)
  /\ name_check acceptable_row Registry_new = Returns tt Registry_new.
Proof.
  split.
  - apply (name_check_soft test_date_format Py.strptime test_max_str_digits row_with_soft_errors
             RegistryErrorDict__init__ Registry_new); reflexivity.
  - apply (name_check_soft test_date_format Py.strptime test_max_str_digits acceptable_row
             RegistryErrorDict__init__ Registry_new); reflexivity.
Defined.

Lemma soft_errors_accumulate_witness :
  _registry_row_is_addable test_date_format Py.strptime test_max_str_digits
    row_with_soft_errors Registry_new
  = Returns true
      (with_Errors
         {| Errors_found := true;
            Number_of_missing_ISINs := 0;
            Faulty_ISINs := ∅;
            Missing_names := {["123456789012"]} ∪ ∅;
            Faulty_months_in_report := {["123456789012"]} ∪ ∅;
            Faulty_report_expiry_dates := {["123456789012"]} ∪ ∅ |}
         Registry_new)
  /\ _registry_row_is_addable test_date_format Py.strptime test_max_str_digits
       (row_with_months (String "028" "3")) Registry_new
     = Returns true
         (with_Errors
            {| Errors_found := true;
               Number_of_missing_ISINs := 0;
               Faulty_ISINs := ∅;
               Missing_names := ∅;
               Faulty_months_in_report := {["123456789012"]} ∪ ∅;
               Faulty_report_expiry_dates := ∅ |}
            Registry_new)
  /\ _registry_row_is_addable test_date_format Py.strptime test_max_str_digits
       (row_with_months " 12 ") Registry_with_errors
     = Returns true (with_Errors report_with_errors Registry_with_errors).
Proof.
  split; [|split].
  - apply (soft_errors_accumulate test_date_format Py.strptime
             test_max_str_digits row_with_soft_errors
             RegistryErrorDict__init__ Registry_new); reflexivity.
  - apply (soft_errors_accumulate test_date_format Py.strptime
             test_max_str_digits (row_with_months (String "028" "3"))
             RegistryErrorDict__init__ Registry_new); reflexivity.
  - apply (soft_errors_accumulate test_date_format Py.strptime
             test_max_str_digits (row_with_months " 12 ")
             report_with_errors Registry_with_errors);
      [vm_compute; reflexivity|reflexivity].
Defined.

Lemma check_changes_only_Errors_witness :
  let w' :=
    with_Errors (mkErrors true 0 ∅ ∅ {["123456789012"]} ∅) Registry_loaded in
  logged w' = logged Registry_loaded
  /\ (forall k, k ≠ "Errors" -> self w' !! k = self Registry_loaded !! k)
  /\ dom (self w') = dom (self Registry_loaded).
Proof.
  apply (check_changes_only_Errors test_date_format Py.strptime
           test_max_str_digits row_with_bad_months Registry_loaded _ true).
  vm_compute. reflexivity.
Defined.

Lemma addable_iff_ISIN_length_witness :
  (true = true <-> String.length (ISIN row_with_soft_errors) = 12%nat)
  /\ (false = true <-> String.length (ISIN row_with_short_ISIN) = 12%nat).
Proof.
  split.
  - apply (addable_iff_ISIN_length test_date_format Py.strptime
             test_max_str_digits row_with_soft_errors Registry_new
             (with_Errors
                (mkErrors true 0 ∅ {["123456789012"]} {["123456789012"]}
                   {["123456789012"]}) Registry_new) true).
    vm_compute. reflexivity.
  - apply (addable_iff_ISIN_length test_date_format Py.strptime
             test_max_str_digits row_with_short_ISIN Registry_new
             (with_Errors (mkErrors true 0 {["12345678901"]} ∅ ∅ ∅) Registry_new)
             false).
    vm_compute. reflexivity.
Defined.

Lemma check_without_Errors_key_witness :
  _registry_row_is_addable test_date_format Py.strptime test_max_str_digits
    row_with_bad_months new_object
  = Raises (KeyError "Errors")
  /\ _registry_row_is_addable test_date_format Py.strptime test_max_str_digits
       (row_with_months (String "028" "3")) new_object
     = Raises (KeyError "Errors")
  /\ _registry_row_is_addable test_date_format Py.strptime test_max_str_digits
       row_with_bad_date new_object
     = Raises (KeyError "Errors")
  /\ _registry_row_is_addable test_date_format Py.strptime test_max_str_digits
       row_without_ISIN new_object
     = Raises (KeyError "Errors")
  /\ _registry_row_is_addable test_date_format Py.strptime test_max_str_digits
       acceptable_row new_object
     = Returns true new_object.
Proof.
  split; [|split; [|split; [|split]]].
  - apply (check_without_Errors_key test_date_format Py.strptime
             test_max_str_digits row_with_bad_months new_object). reflexivity.
  - apply (check_without_Errors_key test_date_format Py.strptime
             test_max_str_digits (row_with_months (String "028" "3"))
             new_object). reflexivity.
  - apply (check_without_Errors_key test_date_format Py.strptime
             test_max_str_digits row_with_bad_date new_object). reflexivity.
  - apply (check_without_Errors_key test_date_format Py.strptime
             test_max_str_digits row_without_ISIN new_object). reflexivity.
  - apply (check_without_Errors_key test_date_format Py.strptime
             test_max_str_digits acceptable_row new_object). reflexivity.
Defined.

Lemma check_twice_same_witness :
  exists b w1,
    _registry_row_is_addable test_date_format Py.strptime test_max_str_digits row_with_soft_errors
      Registry_new = Returns b w1
    /\ _registry_row_is_addable test_date_format Py.strptime test_max_str_digits
         row_with_soft_errors w1 = Returns b w1.
Proof.
  apply (check_twice_same test_date_format Py.strptime test_max_str_digits row_with_soft_errors
           RegistryErrorDict__init__ Registry_new).
  - reflexivity.
  - discriminate.
Defined.

Lemma report_after_load_witness :
  (exists w' e',
      load_from_file test_date_format Py.strptime test_max_str_digits
        [row_without_ISIN; row_with_short_ISIN; row_without_ISIN;
         row_with_soft_errors; acceptable_row] Registry_new
      = Returns tt w'
      /\ self w' !! "Errors" = Some (VErrors e')
      /\ Number_of_missing_ISINs e' = 2
      /\ Faulty_ISINs e' = {["12345678901"]}
      /\ Missing_names e' = {["123456789012"]}
      /\ Faulty_months_in_report e' = {["123456789012"]}
      /\ Faulty_report_expiry_dates e' = {["123456789012"]})
  /\ (exists w' e',
        load_from_file test_date_format Py.strptime test_max_str_digits
          [row_with_months (String "028" "3"); other_row] Registry_new
        = Returns tt w'
        /\ self w' !! "Errors" = Some (VErrors e')
        /\ Number_of_missing_ISINs e' = 0
        /\ Faulty_ISINs e' = ∅
        /\ Missing_names e' = ∅
        /\ Faulty_months_in_report e' = {["123456789012"]}
        /\ Faulty_report_expiry_dates e' = ∅).
Proof.
  split.
  - destruct (report_after_load test_date_format Py.strptime
                test_max_str_digits
                [row_without_ISIN; row_with_short_ISIN; row_without_ISIN;
                 row_with_soft_errors; acceptable_row]
                RegistryErrorDict__init__ Registry_new)
      as (w' & e' & L & E & N & F & M & Mo & X); [reflexivity|].
    exists w', e'. split; [exact L|]. split; [exact E|].
    split; [rewrite N; reflexivity|].
    split; [rewrite F; vm_compute; reflexivity|].
    split; [rewrite M; vm_compute; reflexivity|].
    split; [rewrite Mo; vm_compute; reflexivity|].
    rewrite X; vm_compute; reflexivity.
  - destruct (report_after_load test_date_format Py.strptime
                test_max_str_digits
                [row_with_months (String "028" "3"); other_row]
                RegistryErrorDict__init__ Registry_new)
      as (w' & e' & L & E & N & F & M & Mo & X); [reflexivity|].
    exists w', e'. split; [exact L|]. split; [exact E|].
    split; [rewrite N; reflexivity|].
    split; [rewrite F; vm_compute; reflexivity|].
    split; [rewrite M; vm_compute; reflexivity|].
    split; [rewrite Mo; vm_compute; reflexivity|].
    rewrite X; vm_compute; reflexivity.
Defined.

Lemma keys_after_load_witness :
  exists w',
    load_from_file test_date_format Py.strptime test_max_str_digits
      [row_with_short_ISIN; other_row; row_with_soft_errors] Registry_new
    = Returns tt w'
    /\ dom (self w') = {["Errors"; "ABCDEFGHIJKL"; "123456789012"]}.
Proof.
  destruct (keys_after_load test_date_format Py.strptime test_max_str_digits
              [row_with_short_ISIN; other_row; row_with_soft_errors]
              RegistryErrorDict__init__ Registry_new)
    as (w' & L & D); [reflexivity|].
  exists w'. split; [exact L|]. rewrite D. vm_compute. reflexivity.
Defined.

Lemma lookup_after_load_witness :
  exists w',
    load_from_file test_date_format Py.strptime test_max_str_digits
      [acceptable_row; row_with_soft_errors] Registry_new
    = Returns tt w'
    /\ self w' !! "123456789012"
       = Some (VStock (_registry_row_from_csv row_with_soft_errors)).
Proof.
  apply (lookup_after_load test_date_format Py.strptime test_max_str_digits
           [acceptable_row; row_with_soft_errors]
           RegistryErrorDict__init__ Registry_new "123456789012").
  - reflexivity.
  - discriminate.
Defined.

Lemma load_in_two_batches_witness :
  exists w1 w2 w12,
    load_from_file test_date_format Py.strptime test_max_str_digits [acceptable_row] Registry_new
    = Returns tt w1
    /\ load_from_file test_date_format Py.strptime test_max_str_digits
         [other_row; row_without_ISIN] w1 = Returns tt w2
    /\ load_from_file test_date_format Py.strptime test_max_str_digits
         ([acceptable_row] ++ [other_row; row_without_ISIN]) Registry_new
       = Returns tt w12
    /\ self w2 = self w12.
Proof.
  apply (load_in_two_batches test_date_format Py.strptime test_max_str_digits
           [acceptable_row] [other_row; row_without_ISIN]
           RegistryErrorDict__init__ Registry_new).
  reflexivity.
Defined.

Lemma Registry_loaded_reachable :
  reachable test_date_format Py.strptime test_max_str_digits Registry_loaded.
Proof.
  apply (reach_load test_date_format Py.strptime test_max_str_digits Registry_new [acceptable_row]).
  - apply (reach_init test_date_format Py.strptime test_max_str_digits [] Registry_new). reflexivity.
  - vm_compute. reflexivity.
Defined.

Lemma Registry_with_errors_reachable :
  reachable test_date_format Py.strptime test_max_str_digits Registry_with_errors.
Proof.
  apply (reach_load test_date_format Py.strptime test_max_str_digits Registry_new
           [row_without_ISIN; row_with_short_ISIN; row_with_soft_errors;
            acceptable_row]).
  - apply (reach_init test_date_format Py.strptime test_max_str_digits []
             Registry_new). reflexivity.
  - vm_compute. reflexivity.
Defined.

Lemma line_logged_by_load_witness :
  exists w' e',
    load_from_file test_date_format Py.strptime test_max_str_digits [other_row] Registry_loaded
    = Returns tt w'
    /\ self w' !! "Errors" = Some (VErrors e')
    /\ logged w'
       = (logged Registry_loaded
          ++ [if Errors_found e'
              then mkLog ERROR "Registry: The following errors found:" []
              else mkLog INFO "Registry: %d new ISIN loaded. No errors found."
                     [Z.of_nat (size (stocks (self w'))) + 1]])%list.
Proof.
  apply (line_logged_by_load test_date_format Py.strptime test_max_str_digits [other_row]
           Registry_loaded).
  exact Registry_loaded_reachable.
Defined.

Lemma stock_keys_have_12_characters_witness :
  String.length "123456789012" = 12%nat.
Proof.
  apply (stock_keys_have_12_characters test_date_format Py.strptime test_max_str_digits
           Registry_loaded "123456789012"
           (_registry_row_from_csv acceptable_row)).
  - exact Registry_loaded_reachable.
  - vm_compute. reflexivity.
Defined.

Lemma flag_agrees_with_report_witness :
  flag_agrees RegistryErrorDict__init__ /\ flag_agrees report_with_errors.
Proof.
  split.
  - apply (flag_agrees_with_report test_date_format Py.strptime
             test_max_str_digits Registry_loaded RegistryErrorDict__init__).
    + exact Registry_loaded_reachable.
    + vm_compute. reflexivity.
  - apply (flag_agrees_with_report test_date_format Py.strptime
             test_max_str_digits Registry_with_errors report_with_errors).
    + exact Registry_with_errors_reachable.
    + vm_compute. reflexivity.
Defined.

Lemma report_sets_sorted_witness :
  sets_sorted report_with_errors
  /\ ("12345678901" ∈ Faulty_ISINs report_with_errors
      /\ "12345678901" ≠ EmptyString
      /\ String.length "12345678901" ≠ 12%nat)
  /\ ("123456789012" ∈ Missing_names report_with_errors
                        ∪ Faulty_months_in_report report_with_errors
                        ∪ Faulty_report_expiry_dates report_with_errors
      /\ String.length "123456789012" = 12%nat).
Proof.
  pose proof (report_sets_sorted test_date_format Py.strptime
                test_max_str_digits Registry_with_errors report_with_errors
                Registry_with_errors_reachable) as Sorted.
  assert (self Registry_with_errors !! "Errors"
          = Some (VErrors report_with_errors)) as L
    by (vm_compute; reflexivity).
  specialize (Sorted L). destruct Sorted as [Faulty Soft].
  assert ("12345678901" ∈ Faulty_ISINs report_with_errors) as F
    by (unfold report_with_errors; cbn [Faulty_ISINs];
        apply elem_of_singleton; reflexivity).
  assert ("123456789012" ∈ Missing_names report_with_errors
                           ∪ Faulty_months_in_report report_with_errors
                           ∪ Faulty_report_expiry_dates report_with_errors) as S.
  { unfold report_with_errors. cbn [Missing_names].
    apply elem_of_union_l, elem_of_union_l, elem_of_singleton. reflexivity. }
  split; [by split|]. split.
  - split; [exact F|]. exact (Faulty _ F).
  - split; [exact S|]. exact (Soft _ S).
Defined.

Lemma blank_EPS_is_zero_witness :
  _string_to_decimal "  " = Decimal_0
  /\ sd_EPS (_registry_row_from_csv (with_EPS "  " acceptable_row)) = Decimal_0.
Proof.
  apply (blank_EPS_is_zero "  " acceptable_row). reflexivity.
Defined.

Lemma report_ignores_row_order_witness :
  exists w1 w2 e',
    load_from_file test_date_format Py.strptime test_max_str_digits
      [row_with_soft_errors; row_with_short_ISIN] Registry_new = Returns tt w1
    /\ load_from_file test_date_format Py.strptime test_max_str_digits
         [row_with_short_ISIN; row_with_soft_errors] Registry_new
       = Returns tt w2
    /\ self w1 !! "Errors" = Some (VErrors e')
    /\ self w2 !! "Errors" = Some (VErrors e')
    /\ dom (self w1) = dom (self w2).
Proof.
  apply (report_ignores_row_order test_date_format Py.strptime test_max_str_digits
           [row_with_soft_errors; row_with_short_ISIN]
           [row_with_short_ISIN; row_with_soft_errors]
           RegistryErrorDict__init__ Registry_new).
  - reflexivity.
  - apply perm_swap.
Defined.

Lemma load_without_Errors_key_witness :
  load_from_file test_date_format Py.strptime test_max_str_digits [] new_object
  = Returns tt (mkWorld ∅ [mkLog ERROR "Registry: No ISIN loaded." []])
  /\ load_from_file test_date_format Py.strptime test_max_str_digits [acceptable_row] new_object
     = Raises (KeyError "Errors").
Proof.
  split.
  - apply (load_without_Errors_key test_date_format Py.strptime test_max_str_digits [] new_object).
    reflexivity.
  - apply (load_without_Errors_key test_date_format Py.strptime test_max_str_digits
             [acceptable_row] new_object).
    reflexivity.
Defined.
